(** * Expense-approval workflow engine (final.py)

    A shallow embedding of the approval-workflow engine of [final.py]:
    the SQLAlchemy models as records, the tables as lists of rows in
    primary-key order, the helper functions [determine_approver],
    [create_initial_approvals], [evaluate_conditional] and the route
    handlers [approve_expense], [reject_expense], [override_approval] as
    functions from a database state to a database state and a response.

    Python specifics kept by the embedding:
    - truthiness ([if steps:], [if not cond:], [cond.get('threshold') and ...]);
    - [approved_count / total * 100] is IEEE binary64 arithmetic, modelled
      with Rocq's primitive floats;
    - an attribute access on [None] raises [AttributeError], which Flask
      turns into a 500 response after the last [db.session.commit()];
    - [abort(code)] and [get_or_404] end the request with that code;
    - a subscript [d[key]] on a dict without the key raises [KeyError];
    - [@login_required] runs before [@role_required] and redirects an
      anonymous caller to the login view. *)

From Stdlib Require Import ZArith List String Bool Lia.
From Stdlib Require Import Floats Uint63.
Import ListNotations.

Local Open Scope string_scope.
Local Open Scope list_scope.

(* ================================================================== *)
(** ** Python values *)

Module Py.

(** A JSON number as Python's [json] module loads it: [int] or [float]. *)
Inductive num :=
| Int (z : Z)
| Float (f : float).

(** [bool(x)] for a number: zero (and [-0.0]) is falsy, everything else,
    [nan] included, is truthy. *)
Definition truthy_num (x : num) : bool :=
  match x with
  | Int z => negb (z =? 0)%Z
  | Float f => negb (PrimFloat.eqb f PrimFloat.zero)
  end.

(** [float(n)] for a count [n] (exact below 2^53). *)
Definition float_of_nat (n : nat) : float :=
  PrimFloat.of_uint63 (Uint63.of_Z (Z.of_nat n)).

(** [float(z)], exact for [|z| <= 2^53]. *)
Definition float_of_Z (z : Z) : float :=
  if (z <? 0)%Z
  then PrimFloat.opp (PrimFloat.of_uint63 (Uint63.of_Z (- z)))
  else PrimFloat.of_uint63 (Uint63.of_Z z).

(** [a / b * 100] on two [int]s: true division, then a float product.
    The evaluator returns before this when there is no record, so [b] is
    at least 1 wherever it is called. *)
Definition percent (a b : nat) : float :=
  PrimFloat.mul (PrimFloat.div (float_of_nat a) (float_of_nat b))
                (float_of_nat 100).

(** [x >= t] for a float [x] and a JSON number [t].  Python compares a
    float with an int by value; [x] is a percentage here (between 0 and
    100), so an int beyond 2^53 in magnitude decides by its sign. *)
Definition float_ge (x : float) (t : num) : bool :=
  match t with
  | Float f => PrimFloat.leb f x
  | Int z =>
      if (9007199254740992 <? z)%Z then false
      else if (z <? - 9007199254740992)%Z then true
      else PrimFloat.leb (float_of_Z z) x
  end.

(** [x in xs] for a list of ints. *)
Definition contains (x : Z) (xs : list Z) : bool :=
  existsb (Z.eqb x) xs.

(** [d.get(key, default)]. *)
Definition get {A : Type} (o : option A) (default : A) : A :=
  match o with
  | Some a => a
  | None => default
  end.

End Py.

(* ================================================================== *)
(** ** The models *)

(** [Expense.status]: [Enum('pending', 'approved', 'rejected')], default
    ['pending']. *)
Module Status.
Inductive t := pending | approved | rejected.

Definition eqb (a b : t) : bool :=
  match a, b with
  | pending, pending | approved, approved | rejected, rejected => true
  | _, _ => false
  end.
End Status.

(** [Approval.action] is a nullable [Enum('approved', 'rejected')]; [None]
    is a record still awaiting its decision. *)
Module Action.
Inductive t := approved | rejected.

(** [a.action == 'approved'] and [a.action == 'rejected'] on a nullable
    column. *)
Definition matches (x : t) (o : option t) : bool :=
  match o, x with
  | Some approved, approved => true
  | Some rejected, rejected => true
  | _, _ => false
  end.
End Action.

Definition is_none {A : Type} (o : option A) : bool :=
  match o with
  | None => true
  | Some _ => false
  end.

(** Columns that the engine never reads (names, e-mail, password hash,
    amounts, category, date, receipt, creation timestamp) are left out. *)

Module Company.
Record t := mk { id : Z }.
End Company.

Module User.
Record t := mk {
  id : Z;
  company_id : Z;
  role : string;
  manager_id : option Z
}.
End User.

Module Expense.
Record t := mk {
  id : Z;
  employee_id : Z;
  status : Status.t;
  comments : option string
}.

Definition set_status (s : Status.t) (e : t) : t :=
  mk (id e) (employee_id e) s (comments e).

Definition set_comments (c : option string) (e : t) : t :=
  mk (id e) (employee_id e) (status e) c.
End Expense.

(** Step numbers are counters handed out by the engine itself ([step=1],
    [enumerate(steps, 1)], [current_step + 1]); they are never negative. *)
Module Approval.
Record t := mk {
  id : Z;
  expense_id : Z;
  approver_id : Z;
  step : nat;
  action : option Action.t;
  comments : option string
}.

(** [approval.action = a; approval.comments = c]. *)
Definition decide (a : Action.t) (c : string) (r : t) : t :=
  mk (id r) (expense_id r) (approver_id r) (step r) (Some a) (Some c).
End Approval.

(** A step descriptor of the JSON workflow config, by its ['type'] key.
    The config is stored unvalidated, so a step dict may lack the key
    ['type'], and a step of type ['role'] may lack the key ['role']. *)
Inductive step_desc :=
| manager_of_submitter
| role_step (role : string)
| user_step (user_id : Z)
| other_step (type : string)
| untyped_step
| role_step_without_role.


(** [config['conditional']]: a dict whose keys ['threshold'] and
    ['specific'] may each be missing. *)
Record conditional := mk_conditional {
  threshold : option Py.num;
  specific : option (list Z)
}.

(** A dict is falsy exactly when it has no key. *)
Definition truthy_conditional (c : conditional) : bool :=
  negb (is_none (threshold c) && is_none (specific c)).

(** [Workflow.config]: the keys ['type'], ['steps'] and ['conditional'],
    each read with [.get]. *)
Record config := mk_config {
  cfg_type : option string;
  cfg_steps : option (list step_desc);
  cfg_conditional : option conditional
}.

Module Workflow.
Record t := mk {
  id : Z;
  company_id : Z;
  config : config
}.
End Workflow.

(** The database: one list of rows per table, in primary-key order. *)
Record db := mk_db {
  companies : list Company.t;
  users : list User.t;
  expenses : list Expense.t;
  approvals : list Approval.t;
  workflows : list Workflow.t
}.

(* ================================================================== *)
(** ** Queries and writes *)

Module Query.

(** [Model.query.get(k)] *)
Definition Company_get (d : db) (k : Z) : option Company.t :=
  find (fun c => (Company.id c =? k)%Z) (companies d).

Definition User_get (d : db) (k : Z) : option User.t :=
  find (fun u => (User.id u =? k)%Z) (users d).

Definition Expense_get (d : db) (k : Z) : option Expense.t :=
  find (fun e => (Expense.id e =? k)%Z) (expenses d).

Definition Approval_get (d : db) (k : Z) : option Approval.t :=
  find (fun a => (Approval.id a =? k)%Z) (approvals d).

(** [User.query.filter_by(role=r, company_id=c).first()] *)
Definition User_first_by_role (d : db) (r : string) (c : Z) : option User.t :=
  find (fun u => String.eqb (User.role u) r && (User.company_id u =? c)%Z)
       (users d).

(** [Workflow.query.filter_by(company_id=c).first()] *)
Definition Workflow_first (d : db) (c : Z) : option Workflow.t :=
  find (fun w => (Workflow.company_id w =? c)%Z) (workflows d).

(** [Approval.query.filter_by(expense_id=e).all()] *)
Definition Approvals_of (d : db) (e : Z) : list Approval.t :=
  filter (fun a => (Approval.expense_id a =? e)%Z) (approvals d).

(** [Approval.query.filter_by(expense_id=e, action=None).all()] *)
Definition Approvals_pending_of (d : db) (e : Z) : list Approval.t :=
  filter (fun a => (Approval.expense_id a =? e)%Z && is_none (Approval.action a))
         (approvals d).

(** The relationships [user.manager], [user.company], [expense.employee]
    and [approval.expense]. *)
Definition manager (d : db) (u : User.t) : option User.t :=
  match User.manager_id u with
  | Some m => User_get d m
  | None => None
  end.

Definition company (d : db) (u : User.t) : option Company.t :=
  Company_get d (User.company_id u).

Definition employee (d : db) (e : Expense.t) : option User.t :=
  User_get d (Expense.employee_id e).

Definition expense (d : db) (a : Approval.t) : option Expense.t :=
  Expense_get d (Approval.expense_id a).

End Query.

Module Session.

Definition with_expenses (d : db) (es : list Expense.t) : db :=
  mk_db (companies d) (users d) es (approvals d) (workflows d).

Definition with_approvals (d : db) (rs : list Approval.t) : db :=
  mk_db (companies d) (users d) (expenses d) rs (workflows d).

(** A write to the attributes of the expense row [k]. *)
Definition update_expense (d : db) (k : Z) (f : Expense.t -> Expense.t) : db :=
  with_expenses d
    (map (fun e => if (Expense.id e =? k)%Z then f e else e) (expenses d)).

(** A write to the attributes of the approval row [k]. *)
Definition update_approval (d : db) (k : Z) (f : Approval.t -> Approval.t) : db :=
  with_approvals d
    (map (fun a => if (Approval.id a =? k)%Z then f a else a) (approvals d)).

(** The key an integer primary key gets on insert: one past the largest. *)
Definition next_approval_id (d : db) : Z :=
  (fold_right Z.max 0 (map Approval.id (approvals d)) + 1)%Z.

(** [db.session.add(Approval(expense_id=e, approver_id=u, step=s))]:
    [action] and [comments] start as [None]. *)
Definition add_approval (d : db) (e u : Z) (s : nat) : db :=
  with_approvals d
    (approvals d ++ [Approval.mk (next_approval_id d) e u s None None]).

(** [db.session.delete(pa)] for every row of [pas]. *)
Definition delete_approvals (d : db) (pas : list Approval.t) : db :=
  with_approvals d
    (filter (fun a => negb (existsb (fun pa => (Approval.id pa =? Approval.id a)%Z) pas))
            (approvals d)).

End Session.

Import Query Session.

(* ================================================================== *)
(** ** Requests, responses and exceptions *)

(** [request.json] when the body is a JSON object: the keys the handlers
    read, each possibly missing.  A JSON body that is not an object is
    [json_other] of [request_json] below. *)
Record body := mk_body {
  body_action : option string;
  body_comments : option string
}.

(** A response: HTTP status code and the JSON message (or error text). *)
Definition response : Type := nat * string.

Inductive exn :=
| AttributeError            (* an attribute of [None] *)
| IndexError
| KeyError                  (* a missing dict key under [d[key]] *)
| HTTPException (code : nat). (* [abort(code)], or a redirect *)

Inductive result (A : Type) :=
| Ok (a : A)
| Raise (e : exn).
Arguments Ok {A} a.
Arguments Raise {A} e.

(** What Flask answers when a handler raises. *)
Definition error_response (e : exn) : response :=
  match e with
  | HTTPException code => (code, "")
  | AttributeError | IndexError | KeyError => (500, "Internal Server Error")
  end.

Definition jsonify (message : string) : response := (200, message).

Definition is_error (r : response) : bool := (400 <=? fst r)%nat.

(** The decorator [role_required]: 401 for an anonymous caller, 403 for a
    role outside [roles]. *)
Definition role_required (roles : list string) (current_user : option User.t)
  : result User.t :=
  match current_user with
  | None => Raise (HTTPException 401)
  | Some u =>
      if existsb (String.eqb (User.role u)) roles then Ok u
      else Raise (HTTPException 403)
  end.

(** The decorator [login_required] of Flask-Login.  The application sets
    [login_manager.login_view], so an anonymous caller is redirected to
    the login view (302) instead of being refused with 401. *)
Definition login_required (current_user : option User.t) : result User.t :=
  match current_user with
  | Some u => Ok u
  | None => Raise (HTTPException 302)
  end.

(** The stack [@login_required] over [@role_required(...)] of the routes:
    the login check runs first, so the 401 of [role_required] is never
    reached. *)
Definition authorize (roles : list string) (current_user : option User.t)
  : result User.t :=
  match login_required current_user with
  | Ok _ => role_required roles current_user
  | Raise e => Raise e
  end.

(* ================================================================== *)
(** ** Helper functions of the engine *)

(** [determine_approver(employee, step, company)].  [employee] and
    [company] are relationship values and may be [None]; the function
    dereferences each only in the branch that needs it. *)
Definition determine_approver (d : db) (employee : option User.t)
    (step : step_desc) (company : option Company.t) : result (option User.t) :=
  match step with
  | manager_of_submitter =>
      match employee with
      | Some e => Ok (manager d e)
      | None => Raise AttributeError
      end
  | role_step r =>
      match company with
      | Some c => Ok (User_first_by_role d r (Company.id c))
      | None => Raise AttributeError
      end
  | user_step k => Ok (User_get d k)
  | other_step _ => Ok None
  | untyped_step => Raise KeyError
  | role_step_without_role => Raise KeyError
  end.

(** [workflow_config.get('type', 'sequential')] and
    [workflow_config.get('steps', [])]. *)
Definition exp_type_of (c : config) : string := Py.get (cfg_type c) "sequential".
Definition steps_of (c : config) : list step_desc := Py.get (cfg_steps c) [].

(** The loop [for i, step in enumerate(steps, 1)] of the
    ['parallel_conditional'] branch, started at index [i]. *)
Fixpoint create_parallel_approvals (d : db) (expense : Expense.t)
    (employee : User.t) (company : option Company.t)
    (i : nat) (steps : list step_desc) : result db :=
  match steps with
  | [] => Ok d
  | step :: rest =>
      match determine_approver d (Some employee) step company with
      | Raise e => Raise e
      | Ok (Some approver) =>
          create_parallel_approvals
            (add_approval d (Expense.id expense) (User.id approver) i)
            expense employee company (S i) rest
      | Ok None =>
          create_parallel_approvals d expense employee company (S i) rest
      end
  end.

(** [create_initial_approvals(expense, workflow_config, employee, company)];
    [expense] is a row of [d] (the caller has added and flushed it). *)
Definition create_initial_approvals (d : db) (expense : Expense.t)
    (workflow_config : config) (employee : User.t)
    (company : option Company.t) : result db :=
  let exp_type := exp_type_of workflow_config in
  let steps := steps_of workflow_config in
  if String.eqb exp_type "sequential" then
    match steps with
    | first_step :: _ =>
        match determine_approver d (Some employee) first_step company with
        | Raise e => Raise e
        | Ok (Some approver) =>
            Ok (add_approval d (Expense.id expense) (User.id approver) 1)
        | Ok None =>
            Ok (update_expense d (Expense.id expense)
                  (Expense.set_status Status.approved))
        end
    | [] => Ok d
    end
  else if String.eqb exp_type "parallel_conditional" then
    create_parallel_approvals d expense employee company 1 steps
  else Ok d.

(** The three tests of [evaluate_conditional]. *)

(** [cond.get('threshold') and (approved_count / total * 100 >= cond['threshold'])] *)
Definition threshold_met (cond : conditional) (approved_count total : nat) : bool :=
  match threshold cond with
  | Some t => Py.truthy_num t && Py.float_ge (Py.percent approved_count total) t
  | None => false
  end.

(** [any(a.action == 'approved' and a.approver_id in specific_ids ...)]
    when ['specific' in cond], [False] otherwise. *)
Definition specific_met (cond : conditional) (rs : list Approval.t) : bool :=
  match specific cond with
  | Some specific_ids =>
      existsb (fun a => Action.matches Action.approved (Approval.action a)
                        && Py.contains (Approval.approver_id a) specific_ids) rs
  | None => false
  end.

(** [all(a.action == 'rejected' for a in approvals if a.action is not None)] *)
Definition all_rejected (rs : list Approval.t) : bool :=
  forallb (fun a => Action.matches Action.rejected (Approval.action a))
          (filter (fun a => negb (is_none (Approval.action a))) rs).

(** [sum(1 for a in approvals if a.action == 'approved')] *)
Definition approved_count (rs : list Approval.t) : nat :=
  List.length (filter (fun a => Action.matches Action.approved (Approval.action a)) rs).

(** [expense = Expense.query.get(k); expense.status = s; db.session.commit()] *)
Definition set_expense_status (d : db) (k : Z) (s : Status.t) : result db :=
  match Expense_get d k with
  | Some expense => Ok (update_expense d (Expense.id expense) (Expense.set_status s))
  | None => Raise AttributeError
  end.

(** [evaluate_conditional(expense_id, workflow_config)] *)
Definition evaluate_conditional (d : db) (expense_id : Z)
    (workflow_config : config) : result db :=
  let rs := Approvals_of d expense_id in
  match rs with
  | [] => Ok d
  | _ :: _ =>
      let total := List.length rs in
      match cfg_conditional workflow_config with
      | None => Ok d
      | Some cond =>
          if negb (truthy_conditional cond) then Ok d
          else if threshold_met cond (approved_count rs) total || specific_met cond rs
          then set_expense_status d expense_id Status.approved
          else if all_rejected rs
          then set_expense_status d expense_id Status.rejected
          else Ok d
      end
  end.

(* ================================================================== *)
(** ** Route handlers

    A handler maps the committed database state to the committed state
    after the request and the response.  Writes that are not followed by
    a [db.session.commit()] before an exception are lost with the
    session. *)

(** An attribute access on a relationship value that may be [None]. *)
Definition deref {A : Type} (d : db) (o : option A)
    (k : A -> db * response) : db * response :=
  match o with
  | Some a => k a
  | None => (d, error_response AttributeError)
  end.

(** The common head of [approve_expense] and [reject_expense]: load the
    record or 404, check its approver or 403, set [action] and [comments]
    and commit. *)
Definition record_decision (d : db) (current_user : User.t) (approval_id : Z)
    (a : Action.t) (data : body) : result (db * Approval.t) :=
  match Approval_get d approval_id with
  | None => Raise (HTTPException 404)
  | Some approval =>
      if negb (Approval.approver_id approval =? User.id current_user)%Z
      then Raise (HTTPException 403)
      else
        let f := Approval.decide a (Py.get (body_comments data) "") in
        Ok (update_approval d (Approval.id approval) f, f approval)
  end.

(** [POST /approvals/<approval_id>/approve] *)
Definition approve_expense (d : db) (current_user : option User.t)
    (approval_id : Z) (data : body) : db * response :=
  match authorize ["manager"; "admin"] current_user with
  | Raise e => (d, error_response e)
  | Ok current_user =>
  match record_decision d current_user approval_id Action.approved data with
  | Raise e => (d, error_response e)
  | Ok (d, approval) =>
    let expense := Query.expense d approval in
    match Workflow_first d (User.company_id current_user) with
    | Some workflow =>
        let config := Workflow.config workflow in
        let exp_type := exp_type_of config in
        let steps := steps_of config in
        if String.eqb exp_type "sequential" then
          let current_step := Approval.step approval in
          if (current_step <? List.length steps)%nat then
            let next_step_idx := current_step in
            match nth_error steps next_step_idx with
            | None => (d, error_response IndexError)
            | Some next_step =>
                deref d expense (fun expense =>
                match determine_approver d (employee d expense) next_step
                                         (company d current_user) with
                | Raise e => (d, error_response e)
                | Ok (Some next_approver) =>
                    (add_approval d (Expense.id expense) (User.id next_approver)
                                  (current_step + 1),
                     jsonify "Approved, forwarded to next")
                | Ok None => (d, jsonify "Approved")
                end)
            end
          else
            deref d expense (fun expense =>
              (update_expense d (Expense.id expense)
                 (Expense.set_status Status.approved),
               jsonify "Approved (final)"))
        else if String.eqb exp_type "parallel_conditional" then
          deref d expense (fun expense =>
            match evaluate_conditional d (Expense.id expense) config with
            | Raise e => (d, error_response e)
            | Ok d' => (d', jsonify "Approved, condition evaluated")
            end)
        else (d, jsonify "Approved")
    | None =>
        deref d expense (fun expense =>
          (update_expense d (Expense.id expense)
             (Expense.set_status Status.approved),
           jsonify "Approved"))
    end
  end
  end.

(** [workflow and workflow.config.get('type') == 'parallel_conditional'] *)
Definition is_parallel_conditional (workflow : option Workflow.t) : bool :=
  match workflow with
  | Some w =>
      match cfg_type (Workflow.config w) with
      | Some ty => String.eqb ty "parallel_conditional"
      | None => false
      end
  | None => false
  end.

(** [POST /approvals/<approval_id>/reject] *)
Definition reject_expense (d : db) (current_user : option User.t)
    (approval_id : Z) (data : body) : db * response :=
  match authorize ["manager"; "admin"] current_user with
  | Raise e => (d, error_response e)
  | Ok current_user =>
  match record_decision d current_user approval_id Action.rejected data with
  | Raise e => (d, error_response e)
  | Ok (d, approval) =>
    let expense := Query.expense d approval in
    let workflow := Workflow_first d (User.company_id current_user) in
    if is_parallel_conditional workflow then
      deref d expense (fun expense =>
        match workflow with
        | Some w =>
            match evaluate_conditional d (Expense.id expense) (Workflow.config w) with
            | Raise e => (d, error_response e)
            | Ok d' => (d', jsonify "Rejected")
            end
        | None => (d, jsonify "Rejected")
        end)
    else
      deref d expense (fun expense =>
        (update_expense d (Expense.id expense)
           (fun e => Expense.set_comments (Approval.comments approval)
                       (Expense.set_status Status.rejected e)),
         jsonify "Rejected"))
  end
  end.

(** [POST /expenses/<expense_id>/override] *)
Definition override_approval (d : db) (current_user : option User.t)
    (expense_id : Z) (data : body) : db * response :=
  match authorize ["admin"] current_user with
  | Raise e => (d, error_response e)
  | Ok current_user =>
  match Expense_get d expense_id with
  | None => (d, error_response (HTTPException 404))
  | Some expense =>
    deref d (employee d expense) (fun submitter =>
      if negb (User.company_id submitter =? User.company_id current_user)%Z
      then (d, error_response (HTTPException 403))
      else
        let action := Py.get (body_action data) "" in
        let comments := Py.get (body_comments data) "" in
        let cancel_pending (d : db) : db * response :=
          let pending_approvals := Approvals_pending_of d expense_id in
          (delete_approvals d pending_approvals,
           jsonify ("Expense " ++ action ++ "d")) in
        if String.eqb action "approve" then
          cancel_pending
            (update_expense d (Expense.id expense)
               (Expense.set_status Status.approved))
        else if String.eqb action "reject" then
          cancel_pending
            (update_expense d (Expense.id expense)
               (fun e => Expense.set_comments (Some comments)
                           (Expense.set_status Status.rejected e)))
        else (d, (400, "Invalid action")))
  end
  end.

(** What a caller observes of an expense. *)
Definition status_of (d : db) (k : Z) : option Status.t :=
  option_map Expense.status (Expense_get d k).

Definition comments_of (d : db) (k : Z) : option (option string) :=
  option_map Expense.comments (Expense_get d k).

(** The evaluator as a decision on the records of the expense followed by
    at most one status write. *)
Definition verdict (rs : list Approval.t) (oc : option conditional) : option Status.t :=
  match rs, oc with
  | [], _ | _, None => None
  | _ :: _, Some cond =>
      if negb (truthy_conditional cond) then None
      else if threshold_met cond (approved_count rs) (List.length rs)
              || specific_met cond rs then Some Status.approved
      else if all_rejected rs then Some Status.rejected
      else None
  end.

(** The committed state once the decision [a] on record [k] is written:
    the head of both decision handlers. *)
Definition after_decision (d : db) (k : Z) (a : Action.t) (data : body) : db :=
  update_approval d k (Approval.decide a (Py.get (body_comments data) "")).

(** The two decision routes as one entry point, by action. *)
Definition decide (a : Action.t) : db -> option User.t -> Z -> body -> db * response :=
  match a with
  | Action.approved => approve_expense
  | Action.rejected => reject_expense
  end.

(** [request.json] of a decision request whose body is JSON: an object,
    or another JSON value (null, a list, a string, a number), on which
    [data.get] raises [AttributeError].  A body that is not JSON at all
    is refused by Flask itself and is not modelled. *)
Inductive request_json :=
| json_object (data : body)
| json_other.

(** A decision request with any JSON body.  With a body that is not an
    object the handler passes its checks (404, 403), then raises at
    [data.get('comments', '')], before [db.session.commit()]: the action
    set on the record is lost with the session. *)
Definition decide_request (a : Action.t) (d : db) (current_user : option User.t)
    (approval_id : Z) (json : request_json) : db * response :=
  match json with
  | json_object data => decide a d current_user approval_id data
  | json_other =>
      match authorize ["manager"; "admin"] current_user with
      | Raise e => (d, error_response e)
      | Ok current_user =>
          match Approval_get d approval_id with
          | None => (d, error_response (HTTPException 404))
          | Some approval =>
              if negb (Approval.approver_id approval =? User.id current_user)%Z
              then (d, error_response (HTTPException 403))
              else (d, error_response AttributeError)
          end
      end
  end.

(** An override request with any JSON body.  With a body that is not an
    object the handler passes its checks (404, 403), then raises at
    [data.get('action')], before any write. *)
Definition override_request (d : db) (current_user : option User.t)
    (expense_id : Z) (json : request_json) : db * response :=
  match json with
  | json_object data => override_approval d current_user expense_id data
  | json_other =>
      match authorize ["admin"] current_user with
      | Raise e => (d, error_response e)
      | Ok current_user =>
          match Expense_get d expense_id with
          | None => (d, error_response (HTTPException 404))
          | Some expense =>
              deref d (employee d expense) (fun submitter =>
                if negb (User.company_id submitter =? User.company_id current_user)%Z
                then (d, error_response (HTTPException 403))
                else (d, error_response AttributeError))
          end
      end
  end.

(** A record as it was before any decision: [action] and [comments] null. *)
Definition reopen (r : Approval.t) : Approval.t :=
  Approval.mk (Approval.id r) (Approval.expense_id r) (Approval.approver_id r)
              (Approval.step r) None None.

(** The state in which record [k] is pending again. *)
Definition reopened (d : db) (k : Z) : db := update_approval d k reopen.

(** The exact percentage [a / n * 100] of [a] approvals among [n] records
    against an integer threshold [t], over the rationals and
    cross-multiplied ([n] is positive): strictly above, strictly below. *)
Definition percent_above (a n : nat) (t : Z) : Prop :=
  (t * Z.of_nat n < 100 * Z.of_nat a)%Z.

Definition percent_below (a n : nat) (t : Z) : Prop :=
  (100 * Z.of_nat a < t * Z.of_nat n)%Z.

(** The threshold test as the specification writes it,
    [approvedCount / totalRecords * 100 >= threshold], over the rationals. *)
Definition percent_reached (a n : nat) (t : Z) : Prop :=
  (t * Z.of_nat n <= 100 * Z.of_nat a)%Z.

(** The double [a / n * 100] reaches the integer [t] whenever the exact
    percentage is strictly above [t], and only if it is not below [t]. *)
Definition threshold_bracket (t : Z) (a n : nat) : bool :=
  let met := Py.float_ge (Py.percent a n) (Py.Int t) in
  implb (t * Z.of_nat n <? 100 * Z.of_nat a)%Z met
  && implb met (t * Z.of_nat n <=? 100 * Z.of_nat a)%Z.

(** [threshold_bracket] for every threshold from 1 to 100, every total
    from 1 to [limit] and every count of approvals up to the total. *)
Definition threshold_bracket_table (limit : nat) : bool :=
  forallb (fun n =>
     forallb (fun a =>
        forallb (fun t => threshold_bracket (Z.of_nat t) a n) (seq 1 100))
             (seq 0 (S n)))
          (seq 1 limit).

(** The approval rule as the evaluator computes it: the threshold is set
    and not zero and the double that [approved_count / total * 100]
    evaluates to reaches it, or some approved record has its approver
    among the ids of ['specific']. *)
Definition approval_rule (cond : conditional) (rs : list Approval.t) : Prop :=
  (exists t,
      threshold cond = Some t /\ Py.truthy_num t = true /\
      Py.float_ge (Py.percent (approved_count rs) (List.length rs)) t = true) \/
  (exists ids a,
      specific cond = Some ids /\ In a rs /\
      Approval.action a = Some Action.approved /\
      In (Approval.approver_id a) ids).


(* ================================================================== *)
(** ** The pending list and the workflow route *)

(** One entry of the pending list: the keys ['expense_id'],
    ['approval_id'] and ['step'] (the keys that copy left-out columns,
    amount, category, description and e-mail, are left out with them). *)
Record pending_item := mk_item {
  item_expense_id : Z;
  item_approval_id : Z;
  item_step : nat
}.

(** The answer of [pending_approvals]: the list, or the code of a refusal
    (500 for the [KeyError] or [AttributeError] of the loop). *)
Inductive listing :=
| Listed (items : list pending_item)
| Refused (code : nat).

(** [Approval.query.filter_by(approver_id=u, action=None).all()] *)
Definition Approvals_pending_for (d : db) (u : Z) : list Approval.t :=
  filter (fun a => (Approval.approver_id a =? u)%Z && is_none (Approval.action a))
         (approvals d).

(** [Expense.query.filter(Expense.id.in_(ids)).all()] *)
Definition Expenses_in (d : db) (ids : list Z) : list Expense.t :=
  filter (fun e => Py.contains (Expense.id e) ids) (expenses d).

(** [exp_dict[k]] for [exp_dict = {e.id: e for e in es}]: a later row
    replaces an earlier one under the same key; [None] is the [KeyError]. *)
Definition exp_dict (es : list Expense.t) (k : Z) : option Expense.t :=
  find (fun e => (Expense.id e =? k)%Z) (rev es).

(** The loop [for approval in approvals: ... result.append({...})];
    [None] when an iteration raises. *)
Fixpoint pending_rows (d : db) (es : list Expense.t) (rs : list Approval.t)
  : option (list pending_item) :=
  match rs with
  | [] => Some []
  | approval :: rest =>
      match exp_dict es (Approval.expense_id approval) with
      | None => None
      | Some exp =>
          match employee d exp with
          | None => None
          | Some _ =>
              option_map
                (cons (mk_item (Expense.id exp) (Approval.id approval)
                               (Approval.step approval)))
                (pending_rows d es rest)
          end
      end
  end.

(** [GET /approvals/pending] *)
Definition pending_approvals (d : db) (current_user : option User.t) : listing :=
  match authorize ["manager"; "admin"] current_user with
  | Raise e => Refused (fst (error_response e))
  | Ok current_user =>
      let rs := Approvals_pending_for d (User.id current_user) in
      let expense_ids := map Approval.expense_id rs in
      let es := Expenses_in d expense_ids in
      match pending_rows d es rs with
      | Some result => Listed result
      | None => Refused 500
      end
  end.

(** The entry that the pending list shows for a record. *)
Definition entry_of (a : Approval.t) : pending_item :=
  mk_item (Approval.expense_id a) (Approval.id a) (Approval.step a).

(** Referential integrity as the foreign keys state it: every approval
    record names an expense row, every expense names a user row. *)
Definition references_resolve (d : db) : Prop :=
  (forall a, In a (approvals d) -> Expense_get d (Approval.expense_id a) <> None) /\
  (forall e, In e (expenses d) -> employee d e <> None).

(** The two methods the route [/workflows] accepts. *)
Inductive method := GET | PUT.

(** [request.json] of a [PUT /workflows]: the key ['config'], possibly
    missing or null. *)
Record workflow_body := mk_workflow_body {
  wb_config : option config
}.

(** The answer of [manage_workflows]: the config (with the message of a
    [PUT]), or an error. *)
Inductive workflow_reply :=
| Config_reply (message : option string) (c : config)
| Error_reply (code : nat) (error : string).

(** Truthiness of a config dict, which is represented by its three known
    keys: the dict without any of them is the empty dict. *)
Definition truthy_config (c : config) : bool :=
  negb (is_none (cfg_type c) && is_none (cfg_steps c) && is_none (cfg_conditional c)).

(** [workflow.config = config] on the workflow row [k]. *)
Definition update_workflow_config (d : db) (k : Z) (c : config) : db :=
  mk_db (companies d) (users d) (expenses d) (approvals d)
        (map (fun w => if (Workflow.id w =? k)%Z
                       then Workflow.mk (Workflow.id w) (Workflow.company_id w) c
                       else w)
             (workflows d)).

(** [GET /workflows] and [PUT /workflows] *)
Definition manage_workflows (d : db) (current_user : option User.t)
    (m : method) (data : workflow_body) : db * workflow_reply :=
  match authorize ["admin"] current_user with
  | Raise e => (d, Error_reply (fst (error_response e)) (snd (error_response e)))
  | Ok current_user =>
      let company_id := User.company_id current_user in
      match m with
      | GET =>
          match Workflow_first d company_id with
          | Some workflow => (d, Config_reply None (Workflow.config workflow))
          | None => (d, Error_reply 404 "No workflow")
          end
      | PUT =>
          match Workflow_first d company_id with
          | None => (d, Error_reply 404 "No workflow found")
          | Some workflow =>
              match wb_config data with
              | None => (d, Error_reply 400 "Invalid config")
              | Some config =>
                  if negb (truthy_config config)
                  then (d, Error_reply 400 "Invalid config")
                  else (update_workflow_config d (Workflow.id workflow) config,
                        Config_reply (Some "Workflow updated") config)
              end
          end
      end
  end.

(** The primary key of the approvals table: no id twice. *)
Definition unique_approval_ids (d : db) : Prop :=
  NoDup (map Approval.id (approvals d)).

(* ================================================================== *)
(** ** A small company

    One company; an admin (1), a manager (2) reporting to the admin, an
    employee (3) reporting to the manager; expense 100 submitted by the
    employee. *)

Module Sample.

Definition acme : Company.t := Company.mk 1.
Definition admin : User.t := User.mk 1 1 "admin" None.
Definition boss : User.t := User.mk 2 1 "manager" (Some 1%Z).
Definition clerk : User.t := User.mk 3 1 "employee" (Some 2%Z).

Definition lunch (s : Status.t) : Expense.t := Expense.mk 100 3 s None.

(** The default workflow that [signup] installs. *)
Definition default_config : config :=
  mk_config (Some "sequential")
            (Some [manager_of_submitter; role_step "admin"])
            None.

Definition sequential (steps : list step_desc) : config :=
  mk_config (Some "sequential") (Some steps) None.

Definition parallel (steps : list step_desc) (c : conditional) : config :=
  mk_config (Some "parallel_conditional") (Some steps) (Some c).

Definition state (c : config) (s : Status.t) (rs : list Approval.t) : db :=
  mk_db [acme] [admin; boss; clerk] [lunch s] rs [Workflow.mk 1 1 c].

Definition no_body : body := mk_body None None.
Definition with_comments (c : string) : body := mk_body None (Some c).

End Sample.

(** States of the small company under a vote and under the default chain. *)
Module Fixture.

Definition vote : conditional := mk_conditional (Some (Py.Int 60)) (Some [1%Z]).

(** Three voter slots; the second has an unknown step type. *)
Definition voting : config :=
  Sample.parallel [manager_of_submitter; other_step "cfo"; role_step "admin"] vote.

Definition fresh : db := Sample.state voting Status.pending [].

(** [fresh] once the initial records are created: manager and admin. *)
Definition polled : db :=
  Sample.state voting Status.pending
    [Approval.mk 1 100 2 1 None None; Approval.mk 2 100 1 3 None None].

(** The default chain, waiting for the manager. *)
Definition chain : db :=
  Sample.state Sample.default_config Status.pending
    [Approval.mk 1 100 2 1 None None].

(** The same expense and record in a company without a workflow row. *)
Definition lawless : db :=
  mk_db [Sample.acme] [Sample.admin; Sample.boss; Sample.clerk]
        [Sample.lunch Status.pending] [Approval.mk 1 100 2 1 None None] [].

(** A workflow of a type the engine does not know. *)
Definition hybrid : db :=
  Sample.state (mk_config (Some "hybrid") (Some [manager_of_submitter]) None)
    Status.pending [Approval.mk 1 100 2 1 None None].

(** [total] voters of whom the first [yes] have approved; the others have
    not voted yet. *)
Definition ballots (yes total : nat) : list Approval.t :=
  map (fun i => Approval.mk (Z.of_nat i) 100 (Z.of_nat i) i
                  (if (i <=? yes)%nat then Some Action.approved else None) None)
      (seq 1 total).

End Fixture.

(* ================================================================== *)
(** ** Tables: lookups after writes *)

Section Tables.

Context {A : Type} (key : A -> Z).

Lemma find_key (k : Z) (l : list A) (x : A) :
  find (fun y => (key y =? k)%Z) l = Some x -> key x = k.
Proof.
  intros H. apply find_some in H. destruct H as [_ H].
  now apply Z.eqb_eq in H.
Qed.

Lemma find_map_key (g : A -> A) (k : Z) (l : list A) :
  (forall x, key (g x) = key x) ->
  find (fun y => (key y =? k)%Z) (map g l)
  = option_map g (find (fun y => (key y =? k)%Z) l).
Proof.
  intros Hg. induction l as [|x l IH]; simpl; [reflexivity|].
  rewrite Hg. destruct (key x =? k)%Z; [reflexivity|exact IH].
Qed.

Lemma find_app_found (p : A -> bool) (l l' : list A) (x : A) :
  find p l = Some x -> find p (l ++ l') = Some x.
Proof.
  induction l as [|y l IH]; simpl; [discriminate|].
  destruct (p y); [trivial|exact IH].
Qed.

Lemma map_key_map (g : A -> A) (l : list A) :
  (forall x, key (g x) = key x) -> map key (map g l) = map key l.
Proof.
  intros Hg. rewrite map_map. apply map_ext. exact Hg.
Qed.

End Tables.

Lemma Expense_get_id d k e : Expense_get d k = Some e -> Expense.id e = k.
Proof. apply (find_key Expense.id). Qed.

Lemma Approval_get_id d k r : Approval_get d k = Some r -> Approval.id r = k.
Proof. apply (find_key Approval.id). Qed.

Lemma Expense_get_update d k f e :
  (forall x, Expense.id (f x) = Expense.id x) ->
  Expense_get d k = Some e ->
  Expense_get (update_expense d k f) k = Some (f e).
Proof.
  intros Hf Hget. unfold Expense_get, update_expense; simpl.
  rewrite (find_map_key Expense.id).
  - unfold Expense_get in Hget. rewrite Hget. simpl.
    apply (find_key Expense.id) in Hget. rewrite Hget, Z.eqb_refl. reflexivity.
  - intros x. destruct (Expense.id x =? k)%Z; [apply Hf|reflexivity].
Qed.

Lemma Approval_get_update d k f r :
  (forall x, Approval.id (f x) = Approval.id x) ->
  Approval_get d k = Some r ->
  Approval_get (update_approval d k f) k = Some (f r).
Proof.
  intros Hf Hget. unfold Approval_get, update_approval; simpl.
  rewrite (find_map_key Approval.id).
  - unfold Approval_get in Hget. rewrite Hget. simpl.
    apply (find_key Approval.id) in Hget. rewrite Hget, Z.eqb_refl. reflexivity.
  - intros x. destruct (Approval.id x =? k)%Z; [apply Hf|reflexivity].
Qed.

Lemma Approval_get_add d k r e u s :
  Approval_get d k = Some r -> Approval_get (add_approval d e u s) k = Some r.
Proof. intros H. unfold Approval_get, add_approval; simpl. now apply find_app_found. Qed.

Lemma next_approval_id_update d k a c :
  next_approval_id (update_approval d k (Approval.decide a c)) = next_approval_id d.
Proof.
  unfold next_approval_id, update_approval; simpl.
  rewrite (map_key_map Approval.id); [reflexivity|].
  intros x. destruct (Approval.id x =? k)%Z; reflexivity.
Qed.

Lemma status_of_update d k s e :
  Expense_get d k = Some e ->
  status_of (update_expense d k (Expense.set_status s)) k = Some s.
Proof.
  intros H. unfold status_of.
  rewrite (Expense_get_update d k _ e); [reflexivity| reflexivity |exact H].
Qed.

(** The resolver reads users and companies only. *)
Lemma determine_approver_approvals d rs employee step company :
  determine_approver (with_approvals d rs) employee step company
  = determine_approver d employee step company.
Proof. destruct step; reflexivity. Qed.

Lemma determine_approver_raises d employee step company e :
  determine_approver d employee step company = Raise e ->
  e = AttributeError \/ e = KeyError.
Proof.
  destruct step; simpl; try discriminate.
  - destruct employee; [discriminate|]. intros [= <-]. now left.
  - destruct company; [discriminate|]. intros [= <-]. now left.
  - intros [= <-]. now right.
  - intros [= <-]. now right.
Qed.

(** ** The decorator stack *)

Lemma authorize_ok roles current_user u :
  role_required roles current_user = Ok u -> authorize roles current_user = Ok u.
Proof.
  unfold authorize, login_required, role_required.
  destruct current_user; [trivial|discriminate].
Qed.

Lemma authorize_inv roles current_user u :
  authorize roles current_user = Ok u -> role_required roles current_user = Ok u.
Proof.
  unfold authorize, login_required. destruct current_user; [trivial|discriminate].
Qed.

Lemma authorize_codes roles current_user e :
  authorize roles current_user = Raise e ->
  e = HTTPException 302 \/ e = HTTPException 403.
Proof.
  unfold authorize, login_required, role_required. destruct current_user as [u|].
  - destruct (existsb _ roles); [discriminate|]. intros [= <-]. now right.
  - intros [= <-]. now left.
Qed.

(** Deciding a record leaves every other table as it was. *)
Lemma Workflow_first_update_approval d k f c :
  Workflow_first (update_approval d k f) c = Workflow_first d c.
Proof. reflexivity. Qed.

Lemma expense_update_approval d k f a :
  expense (update_approval d k f) a = Expense_get d (Approval.expense_id a).
Proof. reflexivity. Qed.

Lemma determine_approver_update_approval d k f x step company0 :
  determine_approver (update_approval d k f)
    (employee (update_approval d k f) x) step (company (update_approval d k f) company0)
  = determine_approver d (employee d x) step (company d company0).
Proof. apply determine_approver_approvals. Qed.

(** ** The conditional evaluator: shape of its result *)

Lemma set_expense_status_ok d k s e :
  Expense_get d k = Some e ->
  set_expense_status d k s = Ok (update_expense d k (Expense.set_status s)).
Proof.
  intros H. unfold set_expense_status. rewrite H.
  now rewrite (Expense_get_id _ _ _ H).
Qed.

Lemma set_expense_status_approvals d k s d' :
  set_expense_status d k s = Ok d' -> approvals d' = approvals d.
Proof.
  unfold set_expense_status. destruct (Expense_get d k); [|discriminate].
  now intros [= <-].
Qed.

Lemma set_expense_status_raises d k s e :
  set_expense_status d k s = Raise e -> e = AttributeError.
Proof.
  unfold set_expense_status. destruct (Expense_get d k); [discriminate|].
  now intros [= <-].
Qed.

Lemma evaluate_conditional_verdict d k cfg :
  evaluate_conditional d k cfg
  = match verdict (Approvals_of d k) (cfg_conditional cfg) with
    | Some s => set_expense_status d k s
    | None => Ok d
    end.
Proof.
  unfold evaluate_conditional, verdict.
  destruct (Approvals_of d k) as [|r rs]; [reflexivity|].
  destruct (cfg_conditional cfg) as [cond|]; [|reflexivity].
  destruct (negb (truthy_conditional cond)); [reflexivity|].
  destruct (threshold_met _ _ _ || specific_met _ _); [reflexivity|].
  destruct (all_rejected _); reflexivity.
Qed.

Lemma evaluate_conditional_approvals d k cfg d' :
  evaluate_conditional d k cfg = Ok d' -> approvals d' = approvals d.
Proof.
  rewrite evaluate_conditional_verdict.
  destruct (verdict _ _).
  - apply set_expense_status_approvals.
  - now intros [= <-].
Qed.

Lemma evaluate_conditional_raises d k cfg e :
  evaluate_conditional d k cfg = Raise e -> e = AttributeError.
Proof.
  rewrite evaluate_conditional_verdict.
  destruct (verdict _ _).
  - apply set_expense_status_raises.
  - discriminate.
Qed.

(* ================================================================== *)
(** ** Decisions *)

(** Entering [approve_expense] or [reject_expense] as the approver of the
    record: the role check, the lookup and the ownership test pass. *)
Ltac enter_decision Hrole Hget Hown :=
  unfold approve_expense, reject_expense;
  rewrite (authorize_ok _ _ _ Hrole); unfold record_decision;
  rewrite Hget, Hown, Z.eqb_refl;
  rewrite (Approval_get_id _ _ _ Hget);
  cbv beta iota zeta delta [negb].

Section Sequential.

Variables (d : db) (current_user : option User.t) (cu : User.t).
Variables (k : Z) (data : body) (r : Approval.t) (e : Expense.t).
Variable w : Workflow.t.

Hypothesis Hrole : role_required ["manager"; "admin"] current_user = Ok cu.
Hypothesis Hget : Approval_get d k = Some r.
Hypothesis Hown : Approval.approver_id r = User.id cu.
Hypothesis Hexp : Expense_get d (Approval.expense_id r) = Some e.
Hypothesis Hwf : Workflow_first d (User.company_id cu) = Some w.
Hypothesis Hseq : exp_type_of (Workflow.config w) = "sequential".

(** Under a sequential workflow the handler, past its head, is the
    advance-or-finish step on the state with the decision written. *)
Lemma approve_sequential_step :
  approve_expense d current_user k data
  = let steps := steps_of (Workflow.config w) in
    let d1 := after_decision d k Action.approved data in
    if (Approval.step r <? List.length steps)%nat then
      match nth_error steps (Approval.step r) with
      | None => (d1, error_response IndexError)
      | Some next_step =>
          match determine_approver d (employee d e) next_step (company d cu) with
          | Raise e0 => (d1, error_response e0)
          | Ok (Some a) =>
              (add_approval d1 (Expense.id e) (User.id a) (Approval.step r + 1),
               jsonify "Approved, forwarded to next")
          | Ok None => (d1, jsonify "Approved")
          end
      end
    else (update_expense d1 (Expense.id e) (Expense.set_status Status.approved),
          jsonify "Approved (final)").
Proof.
  enter_decision Hrole Hget Hown.
  rewrite Workflow_first_update_approval, Hwf, Hseq.
  change ("sequential" =? "sequential") with true. cbv iota.
  rewrite expense_update_approval.
  change (Approval.expense_id (Approval.decide _ _ r)) with (Approval.expense_id r).
  change (Approval.step (Approval.decide _ _ r)) with (Approval.step r).
  rewrite Hexp. unfold deref, after_decision. cbv zeta.
  destruct (Approval.step r <? _)%nat; [|reflexivity].
  destruct (nth_error _ _); [|reflexivity].
  rewrite determine_approver_update_approval.
  reflexivity.
Qed.

(** C3. Approving a record [r] of a sequential workflow with
    [r.step < len(steps)]: the next step [steps[r.step]] exists; when the
    resolver yields an approver for it, the approvals table gains exactly
    one row, pending, at step [r.step + 1] for that approver and the
    expense of [r], and no expense row changes (a pending expense stays
    pending); when the resolver yields none, no row is added and no
    expense row changes. *)
Theorem approve_sequential_advances_or_stalls :
  (Approval.step r < List.length (steps_of (Workflow.config w)))%nat ->
  exists next_step,
    nth_error (steps_of (Workflow.config w)) (Approval.step r) = Some next_step /\
    (forall a,
        determine_approver d (employee d e) next_step (company d cu) = Ok (Some a) ->
        approvals (fst (approve_expense d current_user k data))
        = approvals (after_decision d k Action.approved data)
          ++ [Approval.mk (next_approval_id d) (Approval.expense_id r) (User.id a)
                          (Approval.step r + 1) None None]
        /\ expenses (fst (approve_expense d current_user k data)) = expenses d) /\
    (determine_approver d (employee d e) next_step (company d cu) = Ok None ->
        approvals (fst (approve_expense d current_user k data))
        = approvals (after_decision d k Action.approved data)
        /\ expenses (fst (approve_expense d current_user k data)) = expenses d).
Proof.
  intros Hlt.
  destruct (nth_error (steps_of (Workflow.config w)) (Approval.step r))
    as [next_step|] eqn:Hnth.
  2:{ apply nth_error_None in Hnth. lia. }
  exists next_step. split; [reflexivity|].
  rewrite approve_sequential_step. cbv zeta.
  apply Nat.ltb_lt in Hlt. rewrite Hlt, Hnth.
  split.
  - intros a Ha. rewrite Ha. simpl fst. split; [|reflexivity].
    unfold add_approval, after_decision. simpl approvals at 1.
    rewrite next_approval_id_update, (Expense_get_id _ _ _ Hexp). reflexivity.
  - intros Ha. rewrite Ha. simpl fst. split; reflexivity.
Qed.

(** C4. Approving a record [r] of a sequential workflow with
    [r.step >= len(steps)] sets the status of its expense to approved
    and adds no approval row: the table is the one with the decision
    written. *)
Theorem approve_sequential_last_step_approves :
  (List.length (steps_of (Workflow.config w)) <= Approval.step r)%nat ->
  status_of (fst (approve_expense d current_user k data)) (Approval.expense_id r)
  = Some Status.approved /\
  approvals (fst (approve_expense d current_user k data))
  = approvals (after_decision d k Action.approved data).
Proof.
  intros Hge. rewrite approve_sequential_step. cbv zeta.
  apply Nat.ltb_ge in Hge. rewrite Hge. simpl fst.
  rewrite (Expense_get_id _ _ _ Hexp). split; [|reflexivity].
  apply (status_of_update _ _ _ e). exact Hexp.
Qed.

End Sequential.

(** The manager approves step 1 of the default chain: the admin is next. *)
Lemma approve_sequential_advances_or_stalls_witness :
  exists next_step,
    nth_error [manager_of_submitter; role_step "admin"] 1 = Some next_step /\
    (forall a,
        determine_approver
          (Sample.state Sample.default_config Status.pending
             [Approval.mk 1 100 2 1 None None])
          (Some Sample.clerk) next_step (Some Sample.acme) = Ok (Some a) ->
        approvals (fst (approve_expense
                          (Sample.state Sample.default_config Status.pending
                             [Approval.mk 1 100 2 1 None None])
                          (Some Sample.boss) 1 (Sample.with_comments "ok")))
        = [Approval.mk 1 100 2 1 (Some Action.approved) (Some "ok")]
          ++ [Approval.mk 2 100 (User.id a) 2 None None]
        /\ expenses (fst (approve_expense
                           (Sample.state Sample.default_config Status.pending
                              [Approval.mk 1 100 2 1 None None])
                           (Some Sample.boss) 1 (Sample.with_comments "ok")))
           = [Sample.lunch Status.pending]) /\
    (determine_approver
       (Sample.state Sample.default_config Status.pending
          [Approval.mk 1 100 2 1 None None])
       (Some Sample.clerk) next_step (Some Sample.acme) = Ok None ->
     approvals (fst (approve_expense
                       (Sample.state Sample.default_config Status.pending
                          [Approval.mk 1 100 2 1 None None])
                       (Some Sample.boss) 1 (Sample.with_comments "ok")))
     = [Approval.mk 1 100 2 1 (Some Action.approved) (Some "ok")]
     /\ expenses (fst (approve_expense
                        (Sample.state Sample.default_config Status.pending
                           [Approval.mk 1 100 2 1 None None])
                        (Some Sample.boss) 1 (Sample.with_comments "ok")))
        = [Sample.lunch Status.pending]).
Proof.
  apply (approve_sequential_advances_or_stalls
           (Sample.state Sample.default_config Status.pending
              [Approval.mk 1 100 2 1 None None])
           (Some Sample.boss) Sample.boss 1 (Sample.with_comments "ok")
           (Approval.mk 1 100 2 1 None None) (Sample.lunch Status.pending)
           (Workflow.mk 1 1 Sample.default_config));
    try reflexivity.
  simpl. lia.
Defined.

(** The admin approves step 2, the last of the default chain. *)
Lemma approve_sequential_last_step_approves_witness :
  status_of (fst (approve_expense
                    (Sample.state Sample.default_config Status.pending
                       [Approval.mk 1 100 2 1 (Some Action.approved) None;
                        Approval.mk 2 100 1 2 None None])
                    (Some Sample.admin) 2 Sample.no_body)) 100
  = Some Status.approved /\
  approvals (fst (approve_expense
                    (Sample.state Sample.default_config Status.pending
                       [Approval.mk 1 100 2 1 (Some Action.approved) None;
                        Approval.mk 2 100 1 2 None None])
                    (Some Sample.admin) 2 Sample.no_body))
  = [Approval.mk 1 100 2 1 (Some Action.approved) None;
     Approval.mk 2 100 1 2 (Some Action.approved) (Some "")].
Proof.
  apply (approve_sequential_last_step_approves
           (Sample.state Sample.default_config Status.pending
              [Approval.mk 1 100 2 1 (Some Action.approved) None;
               Approval.mk 2 100 1 2 None None])
           (Some Sample.admin) Sample.admin 2 Sample.no_body
           (Approval.mk 2 100 1 2 None None) (Sample.lunch Status.pending)
           (Workflow.mk 1 1 Sample.default_config));
    reflexivity.
Defined.

Lemma not_parallel_conditional d c :
  Workflow_first d c = None \/
  (exists w, Workflow_first d c = Some w /\
             exp_type_of (Workflow.config w) = "sequential") ->
  is_parallel_conditional (Workflow_first d c) = false.
Proof.
  intros [H | [w [H Hseq]]]; rewrite H; [reflexivity|]. simpl.
  unfold exp_type_of, Py.get in Hseq.
  destruct (cfg_type (Workflow.config w)); [|reflexivity].
  subst. reflexivity.
Qed.

Lemma In_update_other (k : Z) (f : Approval.t -> Approval.t) (l : list Approval.t) r' :
  In r' l -> Approval.id r' <> k ->
  In r' (map (fun a => if (Approval.id a =? k)%Z then f a else a) l).
Proof.
  intros Hin Hne. apply in_map_iff. exists r'. split; [|exact Hin].
  destruct (Z.eqb_spec (Approval.id r') k); [contradiction|reflexivity].
Qed.

Section Rejection.

Variables (d : db) (current_user : option User.t) (cu : User.t).
Variables (k : Z) (data : body) (r : Approval.t) (e : Expense.t).

Hypothesis Hrole : role_required ["manager"; "admin"] current_user = Ok cu.
Hypothesis Hget : Approval_get d k = Some r.
Hypothesis Hown : Approval.approver_id r = User.id cu.
Hypothesis Hexp : Expense_get d (Approval.expense_id r) = Some e.

(** C5. Under a sequential workflow, or with no workflow at all,
    rejecting a record [r], whatever its step, sets the status of its
    expense to rejected and the expense comments to the comments just
    stored on [r]; no approval row is removed, and every other row
    (pending ones included) is still in the table, unchanged. *)
Theorem reject_sequential_is_terminal :
  Workflow_first d (User.company_id cu) = None \/
  (exists w, Workflow_first d (User.company_id cu) = Some w /\
             exp_type_of (Workflow.config w) = "sequential") ->
  let d' := fst (reject_expense d current_user k data) in
  let r' := Approval.decide Action.rejected (Py.get (body_comments data) "") r in
  status_of d' (Approval.expense_id r) = Some Status.rejected /\
  Approval_get d' k = Some r' /\
  comments_of d' (Approval.expense_id r) = Some (Approval.comments r') /\
  List.length (approvals d') = List.length (approvals d) /\
  (forall other, In other (approvals d) -> Approval.id other <> k ->
                 In other (approvals d')).
Proof.
  intros Hwf d' r'. subst d' r'.
  enter_decision Hrole Hget Hown.
  rewrite Workflow_first_update_approval, (not_parallel_conditional _ _ Hwf).
  rewrite expense_update_approval.
  change (Approval.expense_id (Approval.decide _ _ r)) with (Approval.expense_id r).
  rewrite Hexp. unfold deref. simpl fst.
  rewrite (Expense_get_id _ _ _ Hexp).
  pose proof Hexp as Hexp1.
  change (Expense_get d) with
    (Expense_get (update_approval d k
       (Approval.decide Action.rejected (Py.get (body_comments data) "")))) in Hexp1.
  unfold status_of, comments_of.
  erewrite Expense_get_update; [|reflexivity|exact Hexp1].
  repeat split.
  - change (Approval_get (update_expense ?x _ _)) with (Approval_get x).
    apply Approval_get_update; [reflexivity|exact Hget].
  - simpl. apply length_map.
  - intros other Hin Hne. simpl. now apply In_update_other.
Qed.

End Rejection.

(** The manager rejects step 1 while a stray second record is pending. *)
Lemma reject_sequential_is_terminal_witness :
  status_of (fst (reject_expense
                    (Sample.state Sample.default_config Status.pending
                       [Approval.mk 1 100 2 1 None None;
                        Approval.mk 2 100 1 2 None None])
                    (Some Sample.boss) 1 (Sample.with_comments "no receipt"))) 100
  = Some Status.rejected /\
  comments_of (fst (reject_expense
                      (Sample.state Sample.default_config Status.pending
                         [Approval.mk 1 100 2 1 None None;
                          Approval.mk 2 100 1 2 None None])
                      (Some Sample.boss) 1 (Sample.with_comments "no receipt"))) 100
  = Some (Some "no receipt") /\
  In (Approval.mk 2 100 1 2 None None)
     (approvals (fst (reject_expense
                        (Sample.state Sample.default_config Status.pending
                           [Approval.mk 1 100 2 1 None None;
                            Approval.mk 2 100 1 2 None None])
                        (Some Sample.boss) 1 (Sample.with_comments "no receipt")))).
Proof.
  destruct (reject_sequential_is_terminal
              (Sample.state Sample.default_config Status.pending
                 [Approval.mk 1 100 2 1 None None;
                  Approval.mk 2 100 1 2 None None])
              (Some Sample.boss) Sample.boss 1 (Sample.with_comments "no receipt")
              (Approval.mk 1 100 2 1 None None) (Sample.lunch Status.pending)
              eq_refl eq_refl eq_refl eq_refl
              (or_intror (ex_intro _ (Workflow.mk 1 1 Sample.default_config)
                                   (conj eq_refl eq_refl))))
    as (Hs & _ & Hc & _ & Hother).
  split; [exact Hs|]. split; [exact Hc|].
  apply Hother; [simpl; auto|discriminate].
Defined.

(* ================================================================== *)
(** ** Deciding a record that is already decided *)

Lemma Approval_get_same_approvals d d' k :
  approvals d' = approvals d -> Approval_get d' k = Approval_get d k.
Proof. unfold Approval_get. now intros ->. Qed.

Ltac split_cases :=
  repeat match goal with
         | |- context [match ?x with _ => _ end] => destruct x eqn:?
         end.

Section Decided.

Variables (d : db) (current_user : option User.t) (cu : User.t).
Variables (k : Z) (data : body) (r : Approval.t).

Hypothesis Hrole : role_required ["manager"; "admin"] current_user = Ok cu.
Hypothesis Hget : Approval_get d k = Some r.
Hypothesis Hown : Approval.approver_id r = User.id cu.

Lemma approve_expense_overwrites :
  Approval_get (fst (approve_expense d current_user k data)) k
  = Some (Approval.decide Action.approved (Py.get (body_comments data) "") r) /\
  (fst (snd (approve_expense d current_user k data)) = 200 \/
   fst (snd (approve_expense d current_user k data)) = 500).
Proof.
  pose proof (Approval_get_update d k
                (Approval.decide Action.approved (Py.get (body_comments data) "")) r
                (fun _ => eq_refl) Hget) as Hnew.
  enter_decision Hrole Hget Hown. unfold deref.
  split_cases; simpl fst; simpl snd;
    repeat match goal with
           | H : determine_approver _ _ _ _ = Raise _ |- _ =>
               apply determine_approver_raises in H; destruct H; subst
           | H : evaluate_conditional _ _ _ = Raise _ |- _ =>
               apply evaluate_conditional_raises in H; subst
           | H : evaluate_conditional _ _ _ = Ok _ |- _ =>
               apply evaluate_conditional_approvals in H
           end;
    (split; [|simpl; auto]);
    try exact Hnew;
    try (apply Approval_get_add; exact Hnew).
  erewrite Approval_get_same_approvals by eassumption. exact Hnew.
Qed.

Lemma reject_expense_overwrites :
  Approval_get (fst (reject_expense d current_user k data)) k
  = Some (Approval.decide Action.rejected (Py.get (body_comments data) "") r) /\
  (fst (snd (reject_expense d current_user k data)) = 200 \/
   fst (snd (reject_expense d current_user k data)) = 500).
Proof.
  pose proof (Approval_get_update d k
                (Approval.decide Action.rejected (Py.get (body_comments data) "")) r
                (fun _ => eq_refl) Hget) as Hnew.
  enter_decision Hrole Hget Hown. unfold deref.
  split_cases; simpl fst; simpl snd;
    repeat match goal with
           | H : evaluate_conditional _ _ _ = Raise _ |- _ =>
               apply evaluate_conditional_raises in H; subst
           | H : evaluate_conditional _ _ _ = Ok _ |- _ =>
               apply evaluate_conditional_approvals in H
           end;
    (split; [|simpl; auto]);
    try exact Hnew.
  erewrite Approval_get_same_approvals by eassumption. exact Hnew.
Qed.

(** A decision handler does not read the action or the comments the
    record carries: it starts the same from the state in which the record
    is pending again. *)
Lemma record_decision_reopened (a : Action.t) :
  record_decision (reopened d k) cu k a data
  = Ok (after_decision d k a data,
        Approval.decide a (Py.get (body_comments data) "") r) /\
  record_decision d cu k a data
  = Ok (after_decision d k a data,
        Approval.decide a (Py.get (body_comments data) "") r).
Proof.
  unfold record_decision, reopened, after_decision.
  rewrite (Approval_get_update d k reopen r (fun _ => eq_refl) Hget), Hget.
  change (Approval.approver_id (reopen r)) with (Approval.approver_id r).
  change (Approval.id (reopen r)) with (Approval.id r).
  rewrite Hown, Z.eqb_refl, (Approval_get_id _ _ _ Hget).
  cbv beta iota zeta delta [negb]. split; [|reflexivity].
  f_equal. f_equal.
  unfold update_approval, with_approvals. simpl. f_equal.
  rewrite map_map. apply map_ext. intros x.
  destruct (Approval.id x =? k)%Z eqn:Hx; simpl; rewrite Hx; reflexivity.
Qed.

Lemma decide_reopened (a : Action.t) :
  decide a (reopened d k) current_user k data = decide a d current_user k data.
Proof.
  destruct (record_decision_reopened a) as [Hre Hd].
  destruct a; unfold decide, approve_expense, reject_expense;
    rewrite (authorize_ok _ _ _ Hrole), Hre, Hd; reflexivity.
Qed.

(** C2, as the code has it.  A decision (approve or reject, with a JSON
    object as body) by the record's approver on a record that is already
    decided is not refused.  Whatever the previous action [prev], the
    record's action and comments are overwritten by the new decision; the
    response is never a validation or conflict error (its code is 200, or
    500 when a dangling reference makes the handler raise after the
    write); and the resulting database and response are exactly those of
    the same request on the state in which the record is still pending,
    so the handler goes through the workflow once more and may change the
    expense status. *)
Theorem decide_overwrites_previous_decision (a : Action.t) (prev : Action.t) :
  Approval.action r = Some prev ->
  Approval_get (fst (decide a d current_user k data)) k
  = Some (Approval.decide a (Py.get (body_comments data) "") r) /\
  (fst (snd (decide a d current_user k data)) = 200 \/
   fst (snd (decide a d current_user k data)) = 500) /\
  decide a d current_user k data = decide a (reopened d k) current_user k data.
Proof.
  intros _. split; [|split].
  - destruct a; [apply approve_expense_overwrites|apply reject_expense_overwrites].
  - destruct a; [apply approve_expense_overwrites|apply reject_expense_overwrites].
  - symmetry. apply decide_reopened.
Qed.

End Decided.

(** The manager rejects a record that already carries an approval. *)
Lemma decide_overwrites_previous_decision_witness :
  Approval_get
    (fst (decide Action.rejected
            (Sample.state (Sample.sequential [manager_of_submitter]) Status.approved
               [Approval.mk 1 100 2 1 (Some Action.approved) (Some "ok")])
            (Some Sample.boss) 1 (Sample.with_comments "no"))) 1
  = Some (Approval.mk 1 100 2 1 (Some Action.rejected) (Some "no")) /\
  (fst (snd (decide Action.rejected
               (Sample.state (Sample.sequential [manager_of_submitter]) Status.approved
                  [Approval.mk 1 100 2 1 (Some Action.approved) (Some "ok")])
               (Some Sample.boss) 1 (Sample.with_comments "no"))) = 200 \/
   fst (snd (decide Action.rejected
               (Sample.state (Sample.sequential [manager_of_submitter]) Status.approved
                  [Approval.mk 1 100 2 1 (Some Action.approved) (Some "ok")])
               (Some Sample.boss) 1 (Sample.with_comments "no"))) = 500) /\
  decide Action.rejected
    (Sample.state (Sample.sequential [manager_of_submitter]) Status.approved
       [Approval.mk 1 100 2 1 (Some Action.approved) (Some "ok")])
    (Some Sample.boss) 1 (Sample.with_comments "no")
  = decide Action.rejected
      (Sample.state (Sample.sequential [manager_of_submitter]) Status.approved
         [Approval.mk 1 100 2 1 None None])
      (Some Sample.boss) 1 (Sample.with_comments "no").
Proof.
  apply (decide_overwrites_previous_decision
           (Sample.state (Sample.sequential [manager_of_submitter]) Status.approved
              [Approval.mk 1 100 2 1 (Some Action.approved) (Some "ok")])
           (Some Sample.boss) Sample.boss 1 (Sample.with_comments "no")
           (Approval.mk 1 100 2 1 (Some Action.approved) (Some "ok"))
           eq_refl eq_refl eq_refl Action.rejected Action.approved eq_refl).
Defined.

(** C2 as stated fails.  The chain has one step; expense 100 is approved
    and its record (step 1, approver 2) carries the action approved; the
    approver then posts a reject on that record.  The request is answered 200
    ["Rejected"], the record's action becomes rejected and the expense
    status becomes rejected. *)
Lemma decided_record_is_decided_again :
  option_map Approval.action
    (Approval_get (Sample.state (Sample.sequential [manager_of_submitter]) Status.approved
                     [Approval.mk 1 100 2 1 (Some Action.approved) (Some "ok")]) 1)
  = Some (Some Action.approved) /\
  status_of (Sample.state (Sample.sequential [manager_of_submitter]) Status.approved
               [Approval.mk 1 100 2 1 (Some Action.approved) (Some "ok")]) 100
  = Some Status.approved /\
  snd (reject_expense
         (Sample.state (Sample.sequential [manager_of_submitter]) Status.approved
            [Approval.mk 1 100 2 1 (Some Action.approved) (Some "ok")])
         (Some Sample.boss) 1 (Sample.with_comments "no"))
  = (200, "Rejected") /\
  is_error (snd (reject_expense
                   (Sample.state (Sample.sequential [manager_of_submitter]) Status.approved
                      [Approval.mk 1 100 2 1 (Some Action.approved) (Some "ok")])
                   (Some Sample.boss) 1 (Sample.with_comments "no")))
  = false /\
  option_map Approval.action
    (Approval_get
       (fst (reject_expense
               (Sample.state (Sample.sequential [manager_of_submitter]) Status.approved
                  [Approval.mk 1 100 2 1 (Some Action.approved) (Some "ok")])
               (Some Sample.boss) 1 (Sample.with_comments "no"))) 1)
  = Some (Some Action.rejected) /\
  status_of
    (fst (reject_expense
            (Sample.state (Sample.sequential [manager_of_submitter]) Status.approved
               [Approval.mk 1 100 2 1 (Some Action.approved) (Some "ok")])
            (Some Sample.boss) 1 (Sample.with_comments "no"))) 100
  = Some Status.rejected.
Proof. repeat split. Qed.

(* ================================================================== *)
(** ** Administrative override *)

Lemma filter_nil_iff {A : Type} (p : A -> bool) (l : list A) :
  filter p l = [] <-> (forall a, In a l -> p a = false).
Proof.
  induction l as [|x l IH]; simpl.
  - split; [intros _ a []|reflexivity].
  - destruct (p x) eqn:Hx; split.
    + discriminate.
    + intros H. specialize (H x (or_introl eq_refl)). congruence.
    + intros H a [<-|Hin]; [exact Hx|]. now apply IH.
    + intros H. apply IH. intros a Hin. apply H. now right.
Qed.

(** Deleting the pending rows of an expense leaves it none. *)
Lemma pending_purged d k :
  Approvals_pending_of (delete_approvals d (Approvals_pending_of d k)) k = [].
Proof.
  unfold Approvals_pending_of, delete_approvals. simpl.
  apply filter_nil_iff. intros a Hin.
  apply filter_In in Hin. destruct Hin as [Hin Hkept].
  destruct ((Approval.expense_id a =? k)%Z && is_none (Approval.action a)) eqn:Hp;
    [|reflexivity].
  apply negb_true_iff in Hkept.
  assert (Hex : existsb (fun pa => (Approval.id pa =? Approval.id a)%Z)
                  (filter (fun a0 => (Approval.expense_id a0 =? k)%Z
                                     && is_none (Approval.action a0)) (approvals d))
                = true).
  { apply existsb_exists. exists a. split.
    - apply filter_In. now split.
    - apply Z.eqb_refl. }
  congruence.
Qed.

(** A deletion only removes rows. *)
Lemma delete_approvals_incl d pas :
  incl (approvals (delete_approvals d pas)) (approvals d).
Proof. intros a Hin. simpl in Hin. apply filter_In in Hin. tauto. Qed.

(** After the pending rows of an expense are deleted, every row of that
    expense still in the table carries a decision. *)
Lemma no_pending_row_left d0 k a :
  In a (approvals (delete_approvals d0 (Approvals_pending_of d0 k))) ->
  Approval.expense_id a = k ->
  Approval.action a <> None.
Proof.
  unfold delete_approvals, Approvals_pending_of. simpl.
  intros Hin Hk Hnone. apply filter_In in Hin. destruct Hin as [Hin Hkept].
  apply negb_true_iff in Hkept.
  assert (Hex : existsb (fun pa => (Approval.id pa =? Approval.id a)%Z)
                  (filter (fun a0 => (Approval.expense_id a0 =? k)%Z
                                     && is_none (Approval.action a0)) (approvals d0))
                = true).
  { apply existsb_exists. exists a. split; [|apply Z.eqb_refl].
    apply filter_In. split; [exact Hin|]. now rewrite Hk, Z.eqb_refl, Hnone. }
  congruence.
Qed.

Section Override.

Variables (d : db) (current_user : option User.t) (cu : User.t).
Variables (k : Z) (data : body) (e : Expense.t) (submitter : User.t).

Hypothesis Hrole : role_required ["admin"] current_user = Ok cu.
Hypothesis Hexp : Expense_get d k = Some e.
Hypothesis Hsub : employee d e = Some submitter.
Hypothesis Hco : User.company_id submitter = User.company_id cu.

(** C8. An override by an admin of the submitter's company: with action
    approve the expense status becomes approved; with action reject it
    becomes rejected and the expense comments become the given ones; in
    both cases every record of the expense that is still in the approvals
    table carries a decision (none with a null action is left), and no
    row is added. *)
Theorem override_sets_status_and_purges_pending :
  let d' := fst (override_approval d current_user k data) in
  (body_action data = Some "approve" ->
     status_of d' k = Some Status.approved /\
     (forall a, In a (approvals d') -> Approval.expense_id a = k ->
                Approval.action a <> None) /\
     incl (approvals d') (approvals d)) /\
  (body_action data = Some "reject" ->
     status_of d' k = Some Status.rejected /\
     comments_of d' k = Some (Some (Py.get (body_comments data) "")) /\
     (forall a, In a (approvals d') -> Approval.expense_id a = k ->
                Approval.action a <> None) /\
     incl (approvals d') (approvals d)).
Proof.
  intros d'. subst d'.
  unfold override_approval. rewrite (authorize_ok _ _ _ Hrole), Hexp. unfold deref.
  rewrite Hsub, Hco, Z.eqb_refl. cbv beta iota zeta delta [negb].
  rewrite (Expense_get_id _ _ _ Hexp).
  split; intros Hact; rewrite Hact; simpl Py.get at 1.
  - change ("approve" =? "approve") with true. cbv iota. simpl fst.
    split; [|split].
    + apply (status_of_update d k Status.approved e Hexp).
    + intros a. apply no_pending_row_left.
    + apply (delete_approvals_incl (update_expense d k _)).
  - change ("reject" =? "approve") with false.
    change ("reject" =? "reject") with true. cbv iota. simpl fst.
    split; [|split; [|split]].
    + unfold status_of.
      change (Expense_get (delete_approvals ?x _)) with (Expense_get x).
      erewrite Expense_get_update; [reflexivity|reflexivity|exact Hexp].
    + unfold comments_of.
      change (Expense_get (delete_approvals ?x _)) with (Expense_get x).
      erewrite Expense_get_update; [reflexivity|reflexivity|exact Hexp].
    + intros a. apply no_pending_row_left.
    + apply (delete_approvals_incl (update_expense d k _)).
Qed.

End Override.

(** The admin overrides expense 100 with a reject while the manager's
    record is decided and the admin's own record is pending: the decided
    record stays, the pending one goes. *)
Lemma override_sets_status_and_purges_pending_witness :
  status_of
    (fst (override_approval
            (Sample.state Sample.default_config Status.pending
               [Approval.mk 1 100 2 1 (Some Action.approved) None;
                Approval.mk 2 100 1 2 None None])
            (Some Sample.admin) 100 (mk_body (Some "reject") (Some "duplicate")))) 100
  = Some Status.rejected /\
  comments_of
    (fst (override_approval
            (Sample.state Sample.default_config Status.pending
               [Approval.mk 1 100 2 1 (Some Action.approved) None;
                Approval.mk 2 100 1 2 None None])
            (Some Sample.admin) 100 (mk_body (Some "reject") (Some "duplicate")))) 100
  = Some (Some "duplicate") /\
  (forall a,
     In a (approvals
             (fst (override_approval
                     (Sample.state Sample.default_config Status.pending
                        [Approval.mk 1 100 2 1 (Some Action.approved) None;
                         Approval.mk 2 100 1 2 None None])
                     (Some Sample.admin) 100
                     (mk_body (Some "reject") (Some "duplicate"))))) ->
     Approval.expense_id a = 100%Z -> Approval.action a <> None) /\
  incl (approvals
          (fst (override_approval
                  (Sample.state Sample.default_config Status.pending
                     [Approval.mk 1 100 2 1 (Some Action.approved) None;
                      Approval.mk 2 100 1 2 None None])
                  (Some Sample.admin) 100 (mk_body (Some "reject") (Some "duplicate")))))
       [Approval.mk 1 100 2 1 (Some Action.approved) None;
        Approval.mk 2 100 1 2 None None].
Proof.
  apply (override_sets_status_and_purges_pending
           (Sample.state Sample.default_config Status.pending
              [Approval.mk 1 100 2 1 (Some Action.approved) None;
               Approval.mk 2 100 1 2 None None])
           (Some Sample.admin) Sample.admin 100
           (mk_body (Some "reject") (Some "duplicate"))
           (Sample.lunch Status.pending) Sample.clerk
           eq_refl eq_refl eq_refl eq_refl).
  reflexivity.
Defined.

(** The same override, computed: the table is left with the decided
    record alone. *)
Example override_purges_the_pending_record :
  approvals
    (fst (override_approval
            (Sample.state Sample.default_config Status.pending
               [Approval.mk 1 100 2 1 (Some Action.approved) None;
                Approval.mk 2 100 1 2 None None])
            (Some Sample.admin) 100 (mk_body (Some "reject") (Some "duplicate"))))
  = [Approval.mk 1 100 2 1 (Some Action.approved) None].
Proof. reflexivity. Qed.

(* ================================================================== *)
(** ** The conditional evaluator *)

Lemma matches_iff (x : Action.t) (o : option Action.t) :
  Action.matches x o = true <-> o = Some x.
Proof.
  destruct o as [[]|], x; simpl; split; congruence.
Qed.

Lemma threshold_met_iff cond n m :
  threshold_met cond n m = true <->
  exists t, threshold cond = Some t /\ Py.truthy_num t = true /\
            Py.float_ge (Py.percent n m) t = true.
Proof.
  unfold threshold_met. destruct (threshold cond) as [t|].
  - rewrite andb_true_iff. split.
    + intros [H1 H2]. now exists t.
    + intros [t' [[= <-] H]]. exact H.
  - split; [discriminate|]. intros [t [H _]]. discriminate.
Qed.

Lemma specific_met_iff cond rs :
  specific_met cond rs = true <->
  exists ids a, specific cond = Some ids /\ In a rs /\
                Approval.action a = Some Action.approved /\
                In (Approval.approver_id a) ids.
Proof.
  unfold specific_met, Py.contains. destruct (specific cond) as [ids|].
  - rewrite existsb_exists. split.
    + intros [a [Hin H]]. apply andb_true_iff in H. destruct H as [Ha Hc].
      apply matches_iff in Ha. apply existsb_exists in Hc.
      destruct Hc as [x [Hx Heq]]. apply Z.eqb_eq in Heq. subst x.
      now exists ids, a.
    + intros [ids' [a [[= <-] [Hin [Ha Hc]]]]]. exists a. split; [exact Hin|].
      apply andb_true_iff. split; [now apply matches_iff|].
      apply existsb_exists. exists (Approval.approver_id a).
      split; [exact Hc|apply Z.eqb_refl].
  - split; [discriminate|]. intros [ids [a [H _]]]. discriminate.
Qed.

Lemma approval_rule_iff cond rs :
  threshold_met cond (approved_count rs) (List.length rs) || specific_met cond rs = true
  <-> approval_rule cond rs.
Proof.
  unfold approval_rule.
  rewrite orb_true_iff, threshold_met_iff, specific_met_iff. reflexivity.
Qed.


Section Evaluator.

Variables (d : db) (k : Z) (cfg : config) (cond : conditional) (e : Expense.t).

Hypothesis Hcond : cfg_conditional cfg = Some cond.
Hypothesis Htruthy : truthy_conditional cond = true.
Hypothesis Hrs : Approvals_of d k <> [].
Hypothesis Hexp : Expense_get d k = Some e.

(** With a conditional present and at least one record, the evaluator
    is its three-way test followed by at most one status write. *)
Lemma evaluate_conditional_present :
  evaluate_conditional d k cfg
  = if threshold_met cond (approved_count (Approvals_of d k))
                     (List.length (Approvals_of d k))
       || specific_met cond (Approvals_of d k)
    then Ok (update_expense d k (Expense.set_status Status.approved))
    else if all_rejected (Approvals_of d k)
    then Ok (update_expense d k (Expense.set_status Status.rejected))
    else Ok d.
Proof.
  unfold evaluate_conditional.
  destruct (Approvals_of d k) as [|r0 rs] eqn:Hrows; [contradiction|].
  rewrite Hcond, Htruthy. cbv beta iota zeta delta [negb].
  rewrite !(set_expense_status_ok _ _ _ e Hexp). reflexivity.
Qed.



End Evaluator.

(** *** The threshold test against exact arithmetic *)

Lemma approved_count_le rs : (approved_count rs <= List.length rs)%nat.
Proof. unfold approved_count. apply filter_length_le. Qed.

(** What the table says, for any limit. *)
Lemma threshold_bracket_table_spec limit t a n :
  threshold_bracket_table limit = true ->
  (1 <= t <= 100)%Z -> (a <= n)%nat -> (1 <= n <= limit)%nat ->
  threshold_bracket t a n = true.
Proof.
  unfold threshold_bracket_table. intros H Ht Ha Hn.
  rewrite forallb_forall in H.
  assert (Hin_n : In n (seq 1 limit)) by (apply in_seq; lia).
  apply H in Hin_n. rewrite forallb_forall in Hin_n.
  assert (Hin_a : In a (seq 0 (S n))) by (apply in_seq; lia).
  apply Hin_n in Hin_a. rewrite forallb_forall in Hin_a.
  assert (Hin_t : In (Z.to_nat t) (seq 1 100)) by (apply in_seq; lia).
  apply Hin_a in Hin_t. rewrite Z2Nat.id in Hin_t by lia. exact Hin_t.
Qed.

Lemma threshold_bracket_table_100 : threshold_bracket_table 100 = true.
Proof. vm_compute. reflexivity. Qed.

(** Up to 100 records and for a threshold from 1 to 100 the double is on
    the right side of the threshold whenever the exact percentage is not
    the threshold itself. *)
Lemma threshold_bracket_holds t a n :
  (1 <= t <= 100)%Z -> (a <= n)%nat -> (1 <= n <= 100)%nat ->
  threshold_bracket t a n = true.
Proof.
  exact (fun Ht Ha Hn =>
           threshold_bracket_table_spec 100 t a n threshold_bracket_table_100 Ht Ha Hn).
Qed.

Lemma threshold_met_above cond t a n :
  threshold cond = Some (Py.Int t) ->
  (1 <= t <= 100)%Z -> (a <= n)%nat -> (1 <= n <= 100)%nat ->
  percent_above a n t -> threshold_met cond a n = true.
Proof.
  intros Hth Ht Ha Hn Habove.
  pose proof (threshold_bracket_holds t a n Ht Ha Hn) as Hbr.
  unfold threshold_bracket in Hbr. cbv zeta in Hbr.
  apply andb_true_iff in Hbr. destruct Hbr as [Hup _].
  unfold percent_above in Habove. apply Z.ltb_lt in Habove.
  rewrite Habove in Hup. cbn [implb] in Hup.
  unfold threshold_met. rewrite Hth, Hup.
  unfold Py.truthy_num. destruct (Z.eqb_spec t 0); [lia|reflexivity].
Qed.

Lemma threshold_met_below cond t a n :
  threshold cond = Some (Py.Int t) ->
  (1 <= t <= 100)%Z -> (a <= n)%nat -> (1 <= n <= 100)%nat ->
  percent_below a n t -> threshold_met cond a n = false.
Proof.
  intros Hth Ht Ha Hn Hbelow.
  pose proof (threshold_bracket_holds t a n Ht Ha Hn) as Hbr.
  unfold threshold_bracket in Hbr. cbv zeta in Hbr.
  apply andb_true_iff in Hbr. destruct Hbr as [_ Hdown].
  unfold threshold_met. rewrite Hth.
  destruct (Py.float_ge (Py.percent a n) (Py.Int t)) eqn:Hmet; [|apply andb_false_r].
  cbn [implb] in Hdown. apply Z.leb_le in Hdown. unfold percent_below in Hbelow. lia.
Qed.

Lemma falsy_conditional_no_rule cond rs :
  truthy_conditional cond = false -> ~ approval_rule cond rs.
Proof.
  unfold truthy_conditional, approval_rule. intros Hf.
  destruct (threshold cond), (specific cond); try discriminate.
  intros [[t [H _]]|[ids [a [H _]]]]; discriminate.
Qed.

(** C6, as the code has it.  With a conditional present (an empty one
    included) and at least one record, the evaluator sets the status to
    approved exactly when the approval rule of the code holds: the
    threshold is set and not zero and the double that
    [approved_count / total * 100] evaluates to reaches it, or some
    approved record has its approver in ['specific'].  Pending records do
    not matter.  When the rule fails the evaluator either leaves the
    database as it is or sets the status to rejected.  Against exact
    arithmetic, for an integer threshold from 1 to 100 and at most 100
    records: when the exact percentage is strictly above the threshold the
    status becomes approved; when it is strictly below and no specific
    approver has approved, the status does not become approved.  When the
    exact percentage equals the threshold the outcome is the one of the
    double, which may fall short of it. *)
Theorem evaluate_conditional_approves_exactly_when d k cfg cond e :
  cfg_conditional cfg = Some cond ->
  Approvals_of d k <> [] ->
  Expense_get d k = Some e ->
  exists d',
    evaluate_conditional d k cfg = Ok d' /\
    (approval_rule cond (Approvals_of d k) -> status_of d' k = Some Status.approved) /\
    (~ approval_rule cond (Approvals_of d k) ->
     d' = d \/ status_of d' k = Some Status.rejected) /\
    (forall t,
       threshold cond = Some (Py.Int t) -> (1 <= t <= 100)%Z ->
       (List.length (Approvals_of d k) <= 100)%nat ->
       (percent_above (approved_count (Approvals_of d k))
                      (List.length (Approvals_of d k)) t ->
        status_of d' k = Some Status.approved) /\
       (percent_below (approved_count (Approvals_of d k))
                      (List.length (Approvals_of d k)) t ->
        specific_met cond (Approvals_of d k) = false ->
        d' = d \/ status_of d' k = Some Status.rejected)).
Proof.
  intros Hcond Hrs Hexp.
  assert (Hpos : (1 <= List.length (Approvals_of d k))%nat).
  { destruct (Approvals_of d k); [contradiction|simpl; lia]. }
  pose proof (approved_count_le (Approvals_of d k)) as Hle.
  destruct (truthy_conditional cond) eqn:Htruthy.
  - rewrite (evaluate_conditional_present d k cfg cond e Hcond Htruthy Hrs Hexp).
    destruct (threshold_met _ _ _ || specific_met _ _) eqn:Hrule.
    + eexists. split; [reflexivity|]. split; [|split].
      * intros _. apply (status_of_update _ _ _ e Hexp).
      * intros Hno. apply approval_rule_iff in Hrule. contradiction.
      * intros t Hth Ht Hlen. split.
        -- intros _. apply (status_of_update _ _ _ e Hexp).
        -- intros Hbelow Hsp. exfalso.
           rewrite Hsp, orb_false_r in Hrule.
           rewrite (threshold_met_below cond t _ _ Hth Ht Hle (conj Hpos Hlen) Hbelow)
             in Hrule.
           discriminate.
    + assert (Hno : ~ approval_rule cond (Approvals_of d k)).
      { intros H. apply approval_rule_iff in H. congruence. }
      assert (Hout : forall d',
                 (if all_rejected (Approvals_of d k)
                  then Ok (update_expense d k (Expense.set_status Status.rejected))
                  else Ok d) = Ok d' ->
                 d' = d \/ status_of d' k = Some Status.rejected).
      { intros d'. destruct (all_rejected _); intros [= <-].
        - right. apply (status_of_update _ _ _ e Hexp).
        - left. reflexivity. }
      destruct (if all_rejected (Approvals_of d k)
                then Ok (update_expense d k (Expense.set_status Status.rejected))
                else Ok d) as [d'|e0] eqn:Hres.
      2:{ destruct (all_rejected _); discriminate. }
      exists d'. split; [reflexivity|]. split; [|split].
      * intros H. contradiction.
      * intros _. apply Hout. reflexivity.
      * intros t Hth Ht Hlen. split.
        -- intros Habove. exfalso.
           apply orb_false_iff in Hrule. destruct Hrule as [Hmet _].
           rewrite (threshold_met_above cond t _ _ Hth Ht Hle (conj Hpos Hlen) Habove)
             in Hmet.
           discriminate.
        -- intros _ _. apply Hout. reflexivity.
  - assert (Heval : evaluate_conditional d k cfg = Ok d).
    { unfold evaluate_conditional.
      destruct (Approvals_of d k); [contradiction|].
      now rewrite Hcond, Htruthy. }
    exists d. split; [exact Heval|]. split; [|split].
    + intros H. exfalso.
      exact (falsy_conditional_no_rule cond (Approvals_of d k) Htruthy H).
    + intros _. now left.
    + intros t Hth. exfalso. unfold truthy_conditional in Htruthy.
      rewrite Hth in Htruthy. discriminate.
Qed.

(** Three voters, threshold 60, two approvals and one record pending. *)
Lemma evaluate_conditional_approves_exactly_when_witness :
  exists d',
    evaluate_conditional
      (Sample.state (Sample.parallel [] (mk_conditional (Some (Py.Int 60)) None))
         Status.pending
         [Approval.mk 1 100 1 1 (Some Action.approved) None;
          Approval.mk 2 100 2 2 (Some Action.approved) None;
          Approval.mk 3 100 3 3 None None])
      100 (Sample.parallel [] (mk_conditional (Some (Py.Int 60)) None)) = Ok d' /\
    (approval_rule (mk_conditional (Some (Py.Int 60)) None)
       [Approval.mk 1 100 1 1 (Some Action.approved) None;
        Approval.mk 2 100 2 2 (Some Action.approved) None;
        Approval.mk 3 100 3 3 None None] ->
     status_of d' 100 = Some Status.approved) /\
    (~ approval_rule (mk_conditional (Some (Py.Int 60)) None)
         [Approval.mk 1 100 1 1 (Some Action.approved) None;
          Approval.mk 2 100 2 2 (Some Action.approved) None;
          Approval.mk 3 100 3 3 None None] ->
     d' = Sample.state (Sample.parallel [] (mk_conditional (Some (Py.Int 60)) None))
            Status.pending
            [Approval.mk 1 100 1 1 (Some Action.approved) None;
             Approval.mk 2 100 2 2 (Some Action.approved) None;
             Approval.mk 3 100 3 3 None None]
     \/ status_of d' 100 = Some Status.rejected) /\
    (forall t,
       Some (Py.Int 60) = Some (Py.Int t) -> (1 <= t <= 100)%Z ->
       (3 <= 100)%nat ->
       (percent_above 2 3 t -> status_of d' 100 = Some Status.approved) /\
       (percent_below 2 3 t ->
        specific_met (mk_conditional (Some (Py.Int 60)) None)
          [Approval.mk 1 100 1 1 (Some Action.approved) None;
           Approval.mk 2 100 2 2 (Some Action.approved) None;
           Approval.mk 3 100 3 3 None None] = false ->
        d' = Sample.state (Sample.parallel [] (mk_conditional (Some (Py.Int 60)) None))
               Status.pending
               [Approval.mk 1 100 1 1 (Some Action.approved) None;
                Approval.mk 2 100 2 2 (Some Action.approved) None;
                Approval.mk 3 100 3 3 None None]
        \/ status_of d' 100 = Some Status.rejected)).
Proof.
  apply (evaluate_conditional_approves_exactly_when
           (Sample.state (Sample.parallel [] (mk_conditional (Some (Py.Int 60)) None))
              Status.pending
              [Approval.mk 1 100 1 1 (Some Action.approved) None;
               Approval.mk 2 100 2 2 (Some Action.approved) None;
               Approval.mk 3 100 3 3 None None])
           100 (Sample.parallel [] (mk_conditional (Some (Py.Int 60)) None))
           (mk_conditional (Some (Py.Int 60)) None) (Sample.lunch Status.pending)
           eq_refl).
  - simpl. discriminate.
  - reflexivity.
Defined.

(** C6 as stated fails, twice, each time at the state a decision handler
    hands to the evaluator.

    Threshold 0, no ['specific'], two records; the manager rejects the
    first while the second is pending.  [0 / 2 * 100 >= 0] holds, yet the
    evaluator sets the status to rejected, because
    [cond.get('threshold')] is falsy.

    Threshold 58, no ['specific'], fifty records of which 28 are approved;
    the twenty-ninth voter approves.  29 / 50 * 100 is 58, so the stated
    test holds; the double is 57.99999999999999, the test of the code
    fails, and the status stays pending. *)
Lemma stated_threshold_test_holds_without_approval :
  (percent_reached
     (approved_count [Approval.mk 1 100 2 1 (Some Action.rejected) (Some "no");
                      Approval.mk 2 100 1 2 None None])
     (List.length [Approval.mk 1 100 2 1 (Some Action.rejected) (Some "no");
                   Approval.mk 2 100 1 2 None None]) 0 /\
   evaluate_conditional
     (Sample.state (Sample.parallel [] (mk_conditional (Some (Py.Int 0)) None))
        Status.pending
        [Approval.mk 1 100 2 1 (Some Action.rejected) (Some "no");
         Approval.mk 2 100 1 2 None None])
     100 (Sample.parallel [] (mk_conditional (Some (Py.Int 0)) None))
   = Ok (Sample.state (Sample.parallel [] (mk_conditional (Some (Py.Int 0)) None))
           Status.rejected
           [Approval.mk 1 100 2 1 (Some Action.rejected) (Some "no");
            Approval.mk 2 100 1 2 None None]) /\
   reject_expense
     (Sample.state (Sample.parallel [] (mk_conditional (Some (Py.Int 0)) None))
        Status.pending
        [Approval.mk 1 100 2 1 None None; Approval.mk 2 100 1 2 None None])
     (Some Sample.boss) 1 (Sample.with_comments "no")
   = (Sample.state (Sample.parallel [] (mk_conditional (Some (Py.Int 0)) None))
        Status.rejected
        [Approval.mk 1 100 2 1 (Some Action.rejected) (Some "no");
         Approval.mk 2 100 1 2 None None],
      (200, "Rejected"))) /\
  (approved_count (Fixture.ballots 29 50) = 29 /\
   List.length (Fixture.ballots 29 50) = 50 /\
   percent_reached 29 50 58 /\
   Py.float_ge (Py.percent 29 50) (Py.Int 58) = false /\
   evaluate_conditional
     (Sample.state (Sample.parallel [] (mk_conditional (Some (Py.Int 58)) None))
        Status.pending (Fixture.ballots 29 50))
     100 (Sample.parallel [] (mk_conditional (Some (Py.Int 58)) None))
   = Ok (Sample.state (Sample.parallel [] (mk_conditional (Some (Py.Int 58)) None))
           Status.pending (Fixture.ballots 29 50)) /\
   approved_count
     (Approvals_of
        (fst (approve_expense
                (Sample.state
                   (Sample.parallel [] (mk_conditional (Some (Py.Int 58)) None))
                   Status.pending (Fixture.ballots 28 50))
                (Some (User.mk 29 1 "manager" None)) 29 Sample.no_body)) 100) = 29 /\
   status_of
     (fst (approve_expense
             (Sample.state
                (Sample.parallel [] (mk_conditional (Some (Py.Int 58)) None))
                Status.pending (Fixture.ballots 28 50))
             (Some (User.mk 29 1 "manager" None)) 29 Sample.no_body)) 100
   = Some Status.pending /\
   snd (approve_expense
          (Sample.state
             (Sample.parallel [] (mk_conditional (Some (Py.Int 58)) None))
             Status.pending (Fixture.ballots 28 50))
          (Some (User.mk 29 1 "manager" None)) 29 Sample.no_body)
   = (200, "Approved, condition evaluated")).
Proof.
  split; [split; [|split]|split; [|split; [|split; [|split; [|split; [|split; [|split]]]]]]];
    try (unfold percent_reached; simpl; lia); vm_compute; reflexivity.
Qed.

(** The exact percentage can equal the threshold and the double reach it:
    one approval of two at threshold 50. *)
Example half_reaches_fifty :
  percent_reached 1 2 50 /\ Py.float_ge (Py.percent 1 2) (Py.Int 50) = true.
Proof. split; [unfold percent_reached; lia|reflexivity]. Qed.



(** ** Threshold zero *)

Lemma zero_is_falsy t :
  t = Py.Int 0 \/ t = Py.Float PrimFloat.zero -> Py.truthy_num t = false.
Proof. intros [-> | ->]; reflexivity. Qed.

(** C9, as the code has it.  With threshold 0 (the int [0] or the float
    [0.0]) the threshold test never passes, whatever the counts: the
    value is falsy and [cond.get('threshold') and ...] stops at it.  With
    at least one record the evaluator then approves only through
    ['specific']; failing that it rejects when no decided record is
    anything but rejected, and otherwise leaves the status as it was. *)
Theorem threshold_zero_is_never_met d k cfg cond e t :
  cfg_conditional cfg = Some cond ->
  threshold cond = Some t ->
  t = Py.Int 0 \/ t = Py.Float PrimFloat.zero ->
  Approvals_of d k <> [] ->
  Expense_get d k = Some e ->
  (forall n m, threshold_met cond n m = false) /\
  exists d',
    evaluate_conditional d k cfg = Ok d' /\
    status_of d' k
    = Some (if specific_met cond (Approvals_of d k) then Status.approved
            else if all_rejected (Approvals_of d k) then Status.rejected
            else Expense.status e).
Proof.
  intros Hcond Hth Hzero Hrs Hexp.
  assert (Hnever : forall n m, threshold_met cond n m = false).
  { intros n m. unfold threshold_met. rewrite Hth, (zero_is_falsy _ Hzero). reflexivity. }
  split; [exact Hnever|].
  assert (Htruthy : truthy_conditional cond = true).
  { unfold truthy_conditional. rewrite Hth. reflexivity. }
  rewrite (evaluate_conditional_present d k cfg cond e Hcond Htruthy Hrs Hexp).
  rewrite Hnever. simpl orb.
  destruct (specific_met _ _).
  - eexists. split; [reflexivity|]. apply (status_of_update _ _ _ e Hexp).
  - destruct (all_rejected _).
    + eexists. split; [reflexivity|]. apply (status_of_update _ _ _ e Hexp).
    + eexists. split; [reflexivity|]. unfold status_of. rewrite Hexp. reflexivity.
Qed.

(** Threshold 0 and ['specific'] naming the admin, who has approved. *)
Lemma threshold_zero_is_never_met_witness :
  (forall n m, threshold_met (mk_conditional (Some (Py.Int 0)) (Some [1%Z])) n m = false) /\
  exists d',
    evaluate_conditional
      (Sample.state (Sample.parallel [] (mk_conditional (Some (Py.Int 0)) (Some [1%Z])))
         Status.pending
         [Approval.mk 1 100 1 1 (Some Action.approved) None;
          Approval.mk 2 100 2 2 None None])
      100 (Sample.parallel [] (mk_conditional (Some (Py.Int 0)) (Some [1%Z]))) = Ok d' /\
    status_of d' 100 = Some Status.approved.
Proof.
  apply (threshold_zero_is_never_met
           (Sample.state (Sample.parallel [] (mk_conditional (Some (Py.Int 0)) (Some [1%Z])))
              Status.pending
              [Approval.mk 1 100 1 1 (Some Action.approved) None;
               Approval.mk 2 100 2 2 None None])
           100 (Sample.parallel [] (mk_conditional (Some (Py.Int 0)) (Some [1%Z])))
           (mk_conditional (Some (Py.Int 0)) (Some [1%Z])) (Sample.lunch Status.pending)
           (Py.Int 0) eq_refl eq_refl (or_introl eq_refl)).
  - simpl. discriminate.
  - reflexivity.
Defined.

(** C9 as stated fails.  Threshold 0, no ['specific'], two records, one
    approved and one rejected: [1 / 2 * 100 >= 0] holds, yet the evaluator
    changes nothing and the expense stays pending. *)
Lemma threshold_zero_leaves_pending :
  Py.float_ge (Py.percent 1 2) (Py.Int 0) = true /\
  approved_count [Approval.mk 1 100 1 1 (Some Action.approved) None;
                  Approval.mk 2 100 2 2 (Some Action.rejected) None] = 1 /\
  evaluate_conditional
    (Sample.state (Sample.parallel [] (mk_conditional (Some (Py.Int 0)) None))
       Status.pending
       [Approval.mk 1 100 1 1 (Some Action.approved) None;
        Approval.mk 2 100 2 2 (Some Action.rejected) None])
    100 (Sample.parallel [] (mk_conditional (Some (Py.Int 0)) None))
  = Ok (Sample.state (Sample.parallel [] (mk_conditional (Some (Py.Int 0)) None))
          Status.pending
          [Approval.mk 1 100 1 1 (Some Action.approved) None;
           Approval.mk 2 100 2 2 (Some Action.rejected) None]) /\
  status_of
    (Sample.state (Sample.parallel [] (mk_conditional (Some (Py.Int 0)) None))
       Status.pending
       [Approval.mk 1 100 1 1 (Some Action.approved) None;
        Approval.mk 2 100 2 2 (Some Action.rejected) None])
    100 = Some Status.pending.
Proof. repeat split. Qed.

(* ================================================================== *)
(** ** Submission *)

(** A sequential config whose first step resolves to nobody: the expense
    is approved on the spot and no approval row is added. *)
Lemma first_step_unresolved_auto_approves d expense cfg employee company first_step rest :
  exp_type_of cfg = "sequential" ->
  steps_of cfg = first_step :: rest ->
  determine_approver d (Some employee) first_step company = Ok None ->
  Expense_get d (Expense.id expense) = Some expense ->
  exists d',
    create_initial_approvals d expense cfg employee company = Ok d' /\
    status_of d' (Expense.id expense) = Some Status.approved /\
    approvals d' = approvals d.
Proof.
  intros Hseq Hsteps Hres Hexp. unfold create_initial_approvals.
  rewrite Hseq, Hsteps. change ("sequential" =? "sequential") with true. cbv iota.
  rewrite Hres. eexists. split; [reflexivity|]. split; [|reflexivity].
  apply (status_of_update _ _ _ expense Hexp).
Qed.

(** A sequential config without steps: nothing is written at all. *)
Lemma no_steps_nothing_written d expense cfg employee company :
  exp_type_of cfg = "sequential" ->
  steps_of cfg = [] ->
  create_initial_approvals d expense cfg employee company = Ok d.
Proof.
  intros Hseq Hsteps. unfold create_initial_approvals.
  rewrite Hseq, Hsteps. reflexivity.
Qed.

(** C1, on the code.  The clerk submits expense 100 under a sequential
    workflow whose step list is empty: [create_initial_approvals] writes
    nothing, so the expense keeps the status pending (it is not approved)
    and has no approval record. *)
Theorem submit_without_steps_stays_pending :
  create_initial_approvals
    (Sample.state (Sample.sequential []) Status.pending [])
    (Sample.lunch Status.pending) (Sample.sequential []) Sample.clerk
    (Some Sample.acme)
  = Ok (Sample.state (Sample.sequential []) Status.pending []) /\
  status_of (Sample.state (Sample.sequential []) Status.pending []) 100
  = Some Status.pending /\
  Approvals_of (Sample.state (Sample.sequential []) Status.pending []) 100 = [].
Proof. repeat split. Qed.

(** The other half of C1 at work: the admin, who has no manager, submits
    under a chain that starts with the submitter's manager. *)
Example admin_submission_auto_approved :
  exists d',
    create_initial_approvals
      (mk_db [Sample.acme] [Sample.admin; Sample.boss; Sample.clerk]
             [Expense.mk 101 1 Status.pending None] []
             [Workflow.mk 1 1 Sample.default_config])
      (Expense.mk 101 1 Status.pending None) Sample.default_config Sample.admin
      (Some Sample.acme) = Ok d' /\
    status_of d' 101 = Some Status.approved /\
    approvals d' = [].
Proof.
  eexists. split; [reflexivity|]. split; reflexivity.
Qed.

(* ================================================================== *)
(** ** The resolver *)

(** X1. Whatever approver the resolver returns is a row of the users
    table, and it is the one the step asks for: the submitter's manager,
    a user of the company with the role, or the user with the id.  A step
    of an unknown type never yields an approver. *)
Theorem determine_approver_sound d employee step company a :
  determine_approver d employee step company = Ok (Some a) ->
  In a (users d) /\
  match step with
  | manager_of_submitter =>
      exists e, employee = Some e /\ User.manager_id e = Some (User.id a)
  | role_step r =>
      User.role a = r /\
      exists c, company = Some c /\ User.company_id a = Company.id c
  | user_step u => User.id a = u
  | other_step _ | untyped_step | role_step_without_role => False
  end.
Proof.
  destruct step as [|r|u|ty| |]; simpl; try discriminate.
  - destruct employee as [e|]; [|discriminate]. intros [= H].
    unfold manager in H. destruct (User.manager_id e) as [m|] eqn:Hm; [|discriminate].
    pose proof (find_key User.id _ _ _ H) as Hid. apply find_some in H.
    split; [tauto|]. exists e. split; [reflexivity|]. now rewrite Hid.
  - destruct company as [c|]; [|discriminate]. intros [= H].
    apply find_some in H. destruct H as [Hin H].
    apply andb_true_iff in H. destruct H as [Hr Hc].
    apply String.eqb_eq in Hr. apply Z.eqb_eq in Hc.
    split; [exact Hin|]. split; [exact Hr|]. now exists c.
  - intros [= H]. pose proof (find_key User.id _ _ _ H) as Hid.
    apply find_some in H. tauto.
Qed.

Lemma determine_approver_sound_witness :
  In Sample.admin [Sample.admin; Sample.boss; Sample.clerk] /\
  User.role Sample.admin = "admin" /\
  exists c, Some Sample.acme = Some c /\ User.company_id Sample.admin = Company.id c.
Proof.
  apply (determine_approver_sound
           (Sample.state Sample.default_config Status.pending [])
           (Some Sample.clerk) (role_step "admin") (Some Sample.acme) Sample.admin).
  reflexivity.
Defined.

(* ================================================================== *)
(** ** Initial records of a parallel workflow *)

Lemma determine_approver_add d e u s employee step company :
  determine_approver (add_approval d e u s) employee step company
  = determine_approver d employee step company.
Proof. apply determine_approver_approvals. Qed.

(** The loop, from any start index: it appends rows only; a row is added
    for a step exactly when the resolver yields an approver for it, and no
    two added rows are for the same step. *)
Lemma create_parallel_approvals_rows expense employee company steps :
  forall d i d',
    create_parallel_approvals d expense employee company i steps = Ok d' ->
    expenses d' = expenses d /\
    exists added,
      approvals d' = approvals d ++ added /\
      NoDup (map Approval.step added) /\
      (forall a, In a added ->
         Approval.action a = None /\
         Approval.expense_id a = Expense.id expense /\
         exists j s u,
           Approval.step a = (i + j)%nat /\ nth_error steps j = Some s /\
           determine_approver d (Some employee) s company = Ok (Some u) /\
           Approval.approver_id a = User.id u) /\
      (forall j s u,
         nth_error steps j = Some s ->
         determine_approver d (Some employee) s company = Ok (Some u) ->
         exists a, In a added /\ Approval.step a = (i + j)%nat /\
                   Approval.approver_id a = User.id u).
Proof.
  induction steps as [|step rest IH]; intros d i d' H; simpl in H.
  - injection H as <-. split; [reflexivity|]. exists []. rewrite app_nil_r.
    split; [reflexivity|]. split; [constructor|].
    split; [intros a []|]. intros [|j] s u Hn; discriminate.
  - destruct (determine_approver d (Some employee) step company)
      as [[approver|]|e0] eqn:Hres; [| |discriminate].
    + apply IH in H. destruct H as [Hexp [added [Happ [Hnd [Hall Hex]]]]].
      split; [exact Hexp|].
      exists (Approval.mk (next_approval_id d) (Expense.id expense)
                          (User.id approver) i None None :: added).
      split; [|split; [|split]].
      * rewrite Happ. simpl. now rewrite <- app_assoc.
      * simpl. constructor; [|exact Hnd].
        intros Hin. apply in_map_iff in Hin. destruct Hin as [a [Hstep Hin]].
        destruct (Hall a Hin) as [_ [_ [j [s [u [Hs _]]]]]]. lia.
      * intros a [<-|Hin].
        -- simpl. split; [reflexivity|]. split; [reflexivity|].
           exists 0%nat, step, approver. rewrite Nat.add_0_r. now repeat split.
        -- destruct (Hall a Hin) as [Ha [He [j [s [u [Hs [Hn [Hd Hu]]]]]]]].
           split; [exact Ha|]. split; [exact He|].
           exists (S j), s, u. rewrite determine_approver_add in Hd.
           repeat split; [lia|exact Hn|exact Hd|exact Hu].
      * intros [|j] s u Hn Hd; simpl in Hn.
        -- injection Hn as <-. rewrite Hres in Hd. injection Hd as <-.
           eexists. split; [left; reflexivity|]. simpl. split; [lia|reflexivity].
        -- rewrite <- (determine_approver_add d (Expense.id expense)
                         (User.id approver) i) in Hd.
           destruct (Hex j s u Hn Hd) as [a [Hin [Hs Hu]]].
           exists a. split; [now right|]. split; [lia|exact Hu].
    + apply IH in H. destruct H as [Hexp [added [Happ [Hnd [Hall Hex]]]]].
      split; [exact Hexp|]. exists added.
      split; [exact Happ|]. split; [exact Hnd|]. split.
      * intros a Hin.
        destruct (Hall a Hin) as [Ha [He [j [s [u [Hs [Hn [Hd Hu]]]]]]]].
        split; [exact Ha|]. split; [exact He|].
        exists (S j), s, u. repeat split; [lia|exact Hn|exact Hd|exact Hu].
      * intros [|j] s u Hn Hd; simpl in Hn.
        -- injection Hn as <-. rewrite Hres in Hd. discriminate.
        -- destruct (Hex j s u Hn Hd) as [a [Hin [Hs Hu]]].
           exists a. split; [exact Hin|]. split; [lia|exact Hu].
Qed.

(** X2. Under a parallel_conditional config, submission leaves every
    expense row as it is (the status stays what it was) and appends to the
    approvals table exactly one pending record per step whose approver
    resolves, at the 1-based index of the step and for the resolved
    approver: every added record is such a record, every such step has
    its record, and no two added records are for the same step.  A step
    that resolves to nobody gets no record. *)
Theorem create_initial_approvals_parallel d expense cfg employee company d' :
  exp_type_of cfg = "parallel_conditional" ->
  create_initial_approvals d expense cfg employee company = Ok d' ->
  expenses d' = expenses d /\
  exists added,
    approvals d' = approvals d ++ added /\
    NoDup (map Approval.step added) /\
    (forall a, In a added ->
       Approval.action a = None /\
       Approval.expense_id a = Expense.id expense /\
       exists j s u,
         Approval.step a = S j /\ nth_error (steps_of cfg) j = Some s /\
         determine_approver d (Some employee) s company = Ok (Some u) /\
         Approval.approver_id a = User.id u) /\
    (forall j s u,
       nth_error (steps_of cfg) j = Some s ->
       determine_approver d (Some employee) s company = Ok (Some u) ->
       exists a, In a added /\ Approval.step a = S j /\
                 Approval.approver_id a = User.id u).
Proof.
  intros Hpar H. unfold create_initial_approvals in H. rewrite Hpar in H.
  change ("parallel_conditional" =? "sequential") with false in H.
  change ("parallel_conditional" =? "parallel_conditional") with true in H.
  cbv iota in H. apply create_parallel_approvals_rows in H. exact H.
Qed.

Lemma create_initial_approvals_parallel_witness :
  expenses Fixture.polled = expenses Fixture.fresh /\
  exists added,
    approvals Fixture.polled = approvals Fixture.fresh ++ added /\
    NoDup (map Approval.step added) /\
    (forall a, In a added ->
       Approval.action a = None /\
       Approval.expense_id a = Expense.id (Sample.lunch Status.pending) /\
       exists j s u,
         Approval.step a = S j /\ nth_error (steps_of Fixture.voting) j = Some s /\
         determine_approver Fixture.fresh (Some Sample.clerk) s (Some Sample.acme)
         = Ok (Some u) /\
         Approval.approver_id a = User.id u) /\
    (forall j s u,
       nth_error (steps_of Fixture.voting) j = Some s ->
       determine_approver Fixture.fresh (Some Sample.clerk) s (Some Sample.acme)
       = Ok (Some u) ->
       exists a, In a added /\ Approval.step a = S j /\
                 Approval.approver_id a = User.id u).
Proof.
  apply (create_initial_approvals_parallel
           Fixture.fresh (Sample.lunch Status.pending) Fixture.voting Sample.clerk
           (Some Sample.acme) Fixture.polled); reflexivity.
Defined.





(* ================================================================== *)
(** ** The primary key of the approvals table *)

Lemma next_approval_id_fresh d a :
  In a (approvals d) -> (Approval.id a < next_approval_id d)%Z.
Proof.
  unfold next_approval_id. induction (approvals d) as [|x l IH]; simpl; [intros []|].
  intros [<-|Hin]; [lia|]. specialize (IH Hin). lia.
Qed.

Lemma unique_add d e u s :
  unique_approval_ids d -> unique_approval_ids (add_approval d e u s).
Proof.
  unfold unique_approval_ids, add_approval. simpl. intros H.
  rewrite map_app. simpl. apply NoDup_app; [exact H|repeat constructor; intros []|].
  intros x Hin [<-|[]]. apply in_map_iff in Hin. destruct Hin as [a [Heq Hin]].
  apply next_approval_id_fresh in Hin. lia.
Qed.

Lemma unique_update d k f :
  (forall x, Approval.id (f x) = Approval.id x) ->
  unique_approval_ids d -> unique_approval_ids (update_approval d k f).
Proof.
  unfold unique_approval_ids, update_approval. simpl. intros Hf H.
  rewrite (map_key_map Approval.id); [exact H|].
  intros x. destruct (Approval.id x =? k)%Z; [apply Hf|reflexivity].
Qed.

(** Dropping rows keeps the ids of the rows that stay distinct. *)
Lemma unique_ids_after_filter (keep : Approval.t -> bool) (rows : list Approval.t) :
  NoDup (map Approval.id rows) ->
  NoDup (map Approval.id (filter keep rows)).
Proof.
  induction rows as [|row rows IH]; cbn [filter map]; [trivial|].
  intros Hrows. apply NoDup_cons_iff in Hrows. destruct Hrows as [Hnew Hrest].
  destruct (keep row); [|now apply IH].
  cbn [map]. apply NoDup_cons; [|now apply IH].
  intros Hin. apply Hnew. apply in_map_iff in Hin.
  destruct Hin as [other [Hid Hother]]. apply filter_In in Hother.
  apply in_map_iff. exists other. tauto.
Qed.

Lemma unique_delete d pas :
  unique_approval_ids d -> unique_approval_ids (delete_approvals d pas).
Proof.
  unfold unique_approval_ids, delete_approvals. simpl. apply unique_ids_after_filter.
Qed.

Lemma unique_same_approvals d d' :
  approvals d' = approvals d -> unique_approval_ids d -> unique_approval_ids d'.
Proof. unfold unique_approval_ids. now intros ->. Qed.

Lemma unique_parallel expense employee company steps :
  forall d i d',
    unique_approval_ids d ->
    create_parallel_approvals d expense employee company i steps = Ok d' ->
    unique_approval_ids d'.
Proof.
  induction steps as [|step rest IH]; intros d i d' Hu H; simpl in H.
  - now injection H as <-.
  - destruct (determine_approver d (Some employee) step company) as [[u|]|e0];
      [| |discriminate].
    + eapply IH; [|exact H]. now apply unique_add.
    + eapply IH; [exact Hu|exact H].
Qed.

(** What the head of a decision handler returns when it lets the caller
    in: the record exists, the caller is its approver, and the state is
    the one with the decision written. *)
Lemma record_decision_inv d cu k a data d1 r1 :
  record_decision d cu k a data = Ok (d1, r1) ->
  exists r,
    Approval_get d k = Some r /\ Approval.approver_id r = User.id cu /\
    d1 = after_decision d k a data /\
    r1 = Approval.decide a (Py.get (body_comments data) "") r.
Proof.
  unfold record_decision. destruct (Approval_get d k) as [r|] eqn:Hget; [|discriminate].
  destruct (Z.eqb_spec (Approval.approver_id r) (User.id cu)) as [Heq|]; [|discriminate].
  simpl. intros [= <- <-]. exists r. unfold after_decision.
  now rewrite (Approval_get_id _ _ _ Hget).
Qed.

(** Every path through a decision handler, with the head inverted. *)
Ltac decision_paths :=
  unfold decide, approve_expense, reject_expense, deref;
  repeat match goal with
         | |- context [match record_decision ?d ?cu ?k ?a ?data with _ => _ end] =>
             let H := fresh "Hhead" in
             destruct (record_decision d cu k a data) as [[? ?]|?] eqn:H;
             [apply record_decision_inv in H;
              destruct H as (? & ? & ? & -> & ->)|]
         | |- context [match ?x with _ => _ end] => destruct x eqn:?
         end.

Ltac unique_leaf :=
  simpl fst;
  repeat match goal with
         | H : evaluate_conditional _ _ _ = Ok _ |- _ =>
             apply evaluate_conditional_approvals in H
         end;
  unfold after_decision in *;
  first [ assumption
        | apply unique_update; [reflexivity|assumption]
        | apply unique_add; apply unique_update; [reflexivity|assumption]
        | eapply unique_same_approvals; [eassumption|];
          apply unique_update; [reflexivity|assumption]
        | apply (unique_same_approvals (update_approval _ _ _));
          [reflexivity|apply unique_update; [reflexivity|assumption]]
        | apply unique_delete; assumption
        | apply unique_delete;
          apply (unique_same_approvals _ (update_expense _ _ _));
          [reflexivity|assumption] ].

(** X4. No operation of the engine breaks the primary key of the
    approvals table: if no id occurs twice before, none does after a
    decision, after an override, or after the creation of the initial
    records. *)
Theorem approval_ids_stay_unique d :
  unique_approval_ids d ->
  (forall a current_user k data,
      unique_approval_ids (fst (decide a d current_user k data))) /\
  (forall current_user k data,
      unique_approval_ids (fst (override_approval d current_user k data))) /\
  (forall expense cfg employee company d',
      create_initial_approvals d expense cfg employee company = Ok d' ->
      unique_approval_ids d').
Proof.
  intros Hu. split; [|split].
  - intros a current_user k data.
    destruct a; decision_paths; unique_leaf.
  - intros current_user k data. unfold override_approval, deref.
    split_cases; unique_leaf.
  - intros expense cfg employee company d' H. unfold create_initial_approvals in H.
    destruct (exp_type_of cfg =? "sequential").
    + destruct (steps_of cfg) as [|first_step rest]; [now injection H as <-|].
      destruct (determine_approver d (Some employee) first_step company) as [[u|]|e0];
        [| |discriminate]; injection H as <-.
      * now apply unique_add.
      * exact Hu.
    + destruct (exp_type_of cfg =? "parallel_conditional").
      * eapply unique_parallel; [exact Hu|exact H].
      * now injection H as <-.
Qed.

Lemma approval_ids_stay_unique_witness :
  (forall a current_user k data,
      unique_approval_ids (fst (decide a Fixture.polled current_user k data))) /\
  (forall current_user k data,
      unique_approval_ids (fst (override_approval Fixture.polled current_user k data))) /\
  (forall expense cfg employee company d',
      create_initial_approvals Fixture.polled expense cfg employee company = Ok d' ->
      unique_approval_ids d').
Proof.
  apply (approval_ids_stay_unique Fixture.polled).
  unfold unique_approval_ids. simpl.
  constructor; [simpl; intros [H|[]]; discriminate|].
  constructor; [intros []|constructor].
Defined.

(* ================================================================== *)
(** ** What the evaluator leaves alone *)

Lemma Expense_get_update_other d k k' f :
  (forall x, Expense.id (f x) = Expense.id x) ->
  k' <> k ->
  Expense_get (update_expense d k f) k' = Expense_get d k'.
Proof.
  intros Hf Hne. unfold Expense_get, update_expense; simpl.
  rewrite (find_map_key Expense.id).
  - destruct (find _ (expenses d)) as [x|] eqn:Hx; [|reflexivity]. simpl.
    apply (find_key Expense.id) in Hx.
    destruct (Z.eqb_spec (Expense.id x) k); [congruence|reflexivity].
  - intros x. destruct (Expense.id x =? k)%Z; [apply Hf|reflexivity].
Qed.

Lemma comments_of_set_status d k s :
  comments_of (update_expense d k (Expense.set_status s)) k = comments_of d k.
Proof.
  unfold comments_of, Expense_get, update_expense; simpl.
  rewrite (find_map_key Expense.id).
  - destruct (find _ (expenses d)) as [x|]; [|reflexivity]. simpl.
    destruct (Expense.id x =? k)%Z; reflexivity.
  - intros x. destruct (Expense.id x =? k)%Z; reflexivity.
Qed.

Lemma set_expense_status_inv d k s d' :
  set_expense_status d k s = Ok d' ->
  exists e, Expense_get d k = Some e /\
            d' = update_expense d k (Expense.set_status s).
Proof.
  unfold set_expense_status. destruct (Expense_get d k) as [e|] eqn:H; [|discriminate].
  intros [= <-]. exists e. now rewrite (Expense_get_id _ _ _ H).
Qed.

Lemma evaluate_conditional_frame d k cfg d' :
  evaluate_conditional d k cfg = Ok d' ->
  approvals d' = approvals d /\
  users d' = users d /\ companies d' = companies d /\ workflows d' = workflows d /\
  (forall k', k' <> k -> Expense_get d' k' = Expense_get d k') /\
  comments_of d' k = comments_of d k.
Proof.
  rewrite evaluate_conditional_verdict.
  destruct (verdict _ _) as [s|].
  - intros H. apply set_expense_status_inv in H. destruct H as [e [_ ->]].
    repeat split; try reflexivity.
    + intros k' Hne. now apply Expense_get_update_other.
    + apply comments_of_set_status.
  - intros [= <-]. repeat split; reflexivity.
Qed.

(** X5. The evaluator writes one thing at most, the status of the expense
    it is called for: the approvals, users, companies and workflows
    tables are as before, every other expense row is as before, and the
    comments of the expense itself are as before. *)
Theorem evaluate_conditional_writes_status_only d k cfg d' :
  evaluate_conditional d k cfg = Ok d' ->
  approvals d' = approvals d /\
  users d' = users d /\ companies d' = companies d /\ workflows d' = workflows d /\
  (forall k', k' <> k -> Expense_get d' k' = Expense_get d k') /\
  comments_of d' k = comments_of d k.
Proof. apply evaluate_conditional_frame. Qed.

Lemma evaluate_conditional_writes_status_only_witness :
  approvals (Sample.state Fixture.voting Status.rejected (approvals Fixture.polled))
  = approvals Fixture.polled /\
  users (Sample.state Fixture.voting Status.rejected (approvals Fixture.polled))
  = users Fixture.polled /\
  companies (Sample.state Fixture.voting Status.rejected (approvals Fixture.polled))
  = companies Fixture.polled /\
  workflows (Sample.state Fixture.voting Status.rejected (approvals Fixture.polled))
  = workflows Fixture.polled /\
  (forall k', k' <> 100%Z ->
     Expense_get (Sample.state Fixture.voting Status.rejected (approvals Fixture.polled)) k'
     = Expense_get Fixture.polled k') /\
  comments_of (Sample.state Fixture.voting Status.rejected (approvals Fixture.polled)) 100
  = comments_of Fixture.polled 100.
Proof.
  apply (evaluate_conditional_writes_status_only
           Fixture.polled 100 Fixture.voting
           (Sample.state Fixture.voting Status.rejected (approvals Fixture.polled))).
  reflexivity.
Defined.

Lemma update_expense_set_status_twice d k s :
  update_expense (update_expense d k (Expense.set_status s)) k (Expense.set_status s)
  = update_expense d k (Expense.set_status s).
Proof.
  unfold update_expense, with_expenses; simpl. f_equal.
  rewrite map_map. apply map_ext. intros x.
  destruct (Expense.id x =? k)%Z eqn:Hx; simpl; rewrite Hx; reflexivity.
Qed.

(** X6. The evaluator is idempotent: run again on the state it returned,
    with the same config, it returns that state unchanged. *)
Theorem evaluate_conditional_idempotent d k cfg d' :
  evaluate_conditional d k cfg = Ok d' ->
  evaluate_conditional d' k cfg = Ok d'.
Proof.
  intros H. pose proof (evaluate_conditional_approvals _ _ _ _ H) as Happ.
  rewrite evaluate_conditional_verdict in *.
  unfold Approvals_of in *. rewrite Happ.
  destruct (verdict _ _) as [s|]; [|reflexivity].
  apply set_expense_status_inv in H. destruct H as [e [He ->]].
  rewrite (set_expense_status_ok _ _ _ (Expense.set_status s e)).
  - now rewrite update_expense_set_status_twice.
  - apply Expense_get_update; [reflexivity|exact He].
Qed.

Lemma evaluate_conditional_idempotent_witness :
  evaluate_conditional
    (Sample.state Fixture.voting Status.rejected (approvals Fixture.polled))
    100 Fixture.voting
  = Ok (Sample.state Fixture.voting Status.rejected (approvals Fixture.polled)).
Proof.
  apply (evaluate_conditional_idempotent Fixture.polled 100 Fixture.voting).
  reflexivity.
Defined.

(** X7. The evaluator does nothing at all, and cannot raise, in three
    cases: the expense has no approval record, the config has no
    ['conditional'], or the conditional is an empty dict. *)
Theorem evaluate_conditional_noop d k cfg :
  Approvals_of d k = [] \/
  cfg_conditional cfg = None \/
  (exists c, cfg_conditional cfg = Some c /\ threshold c = None /\ specific c = None) ->
  evaluate_conditional d k cfg = Ok d.
Proof.
  rewrite evaluate_conditional_verdict. unfold verdict.
  intros [-> | [-> | [c [-> [Ht Hs]]]]].
  - reflexivity.
  - destruct (Approvals_of d k); reflexivity.
  - unfold truthy_conditional. rewrite Ht, Hs.
    destruct (Approvals_of d k); reflexivity.
Qed.

Lemma evaluate_conditional_noop_witness :
  evaluate_conditional Fixture.polled 100 Sample.default_config = Ok Fixture.polled.
Proof.
  apply (evaluate_conditional_noop Fixture.polled 100 Sample.default_config).
  right. left. reflexivity.
Defined.

(* ================================================================== *)
(** ** Approvals outside the sequential chain *)

Lemma decided_record_listed d k f r :
  (forall x, Approval.id (f x) = Approval.id x) ->
  (forall x, Approval.expense_id (f x) = Approval.expense_id x) ->
  Approval_get d k = Some r ->
  In (f r) (Approvals_of (update_approval d k f) (Approval.expense_id r)).
Proof.
  intros Hid Hexp Hget. unfold Approvals_of, update_approval. simpl.
  apply filter_In. split.
  - apply in_map_iff. exists r. split.
    + now rewrite (Approval_get_id _ _ _ Hget), Z.eqb_refl.
    + unfold Approval_get in Hget. now apply find_some in Hget.
  - rewrite Hexp. apply Z.eqb_refl.
Qed.

Lemma parallel_type cfg :
  exp_type_of cfg = "parallel_conditional" ->
  cfg_type cfg = Some "parallel_conditional".
Proof.
  unfold exp_type_of, Py.get. destruct (cfg_type cfg); [now intros ->|discriminate].
Qed.

Section Branches.

Variables (d : db) (current_user : option User.t) (cu : User.t).
Variables (k : Z) (data : body) (r : Approval.t).

Hypothesis Hrole : role_required ["manager"; "admin"] current_user = Ok cu.
Hypothesis Hget : Approval_get d k = Some r.
Hypothesis Hown : Approval.approver_id r = User.id cu.

(** X8. With no workflow row for the approver's company, any approval
    approves the expense at once and creates no further record. *)
Theorem approve_without_workflow_approves e :
  Expense_get d (Approval.expense_id r) = Some e ->
  Workflow_first d (User.company_id cu) = None ->
  approve_expense d current_user k data
  = (update_expense (after_decision d k Action.approved data)
       (Approval.expense_id r) (Expense.set_status Status.approved),
     jsonify "Approved") /\
  status_of (fst (approve_expense d current_user k data)) (Approval.expense_id r)
  = Some Status.approved.
Proof.
  intros Hexp Hwf.
  assert (Heq : approve_expense d current_user k data
                = (update_expense (after_decision d k Action.approved data)
                     (Approval.expense_id r) (Expense.set_status Status.approved),
                   jsonify "Approved")).
  { enter_decision Hrole Hget Hown.
    rewrite Workflow_first_update_approval, Hwf, expense_update_approval.
    change (Approval.expense_id (Approval.decide _ _ r)) with (Approval.expense_id r).
    rewrite Hexp. unfold deref. now rewrite (Expense_get_id _ _ _ Hexp). }
  split; [exact Heq|]. rewrite Heq. simpl fst.
  apply (status_of_update _ _ _ e). exact Hexp.
Qed.

(** X9. Under a workflow whose type is neither sequential nor
    parallel_conditional, an approval only records the decision: no
    record is created, no expense row changes (the expense keeps its
    status), and the answer is 200 ["Approved"]. *)
Theorem approve_unknown_type_only_records w :
  Workflow_first d (User.company_id cu) = Some w ->
  exp_type_of (Workflow.config w) <> "sequential" ->
  exp_type_of (Workflow.config w) <> "parallel_conditional" ->
  approve_expense d current_user k data
  = (after_decision d k Action.approved data, jsonify "Approved").
Proof.
  intros Hwf Hseq Hpar. enter_decision Hrole Hget Hown.
  rewrite Workflow_first_update_approval, Hwf.
  apply String.eqb_neq in Hseq. apply String.eqb_neq in Hpar.
  rewrite Hseq, Hpar. reflexivity.
Qed.

(** X10. Under a parallel_conditional workflow, the approval of an
    approver named in ['specific'] approves the expense, whatever the
    threshold and the other records. *)
Theorem approve_by_specific_approver_approves e w c ids :
  Expense_get d (Approval.expense_id r) = Some e ->
  Workflow_first d (User.company_id cu) = Some w ->
  exp_type_of (Workflow.config w) = "parallel_conditional" ->
  cfg_conditional (Workflow.config w) = Some c ->
  specific c = Some ids ->
  In (User.id cu) ids ->
  status_of (fst (approve_expense d current_user k data)) (Approval.expense_id r)
  = Some Status.approved /\
  snd (approve_expense d current_user k data)
  = jsonify "Approved, condition evaluated".
Proof.
  intros Hexp Hwf Hpar Hcond Hspec Hin.
  pose proof (decided_record_listed d k
                (Approval.decide Action.approved (Py.get (body_comments data) "")) r
                (fun _ => eq_refl) (fun _ => eq_refl) Hget) as Hlisted.
  set (d1 := update_approval d k
               (Approval.decide Action.approved (Py.get (body_comments data) ""))) in *.
  assert (Htruthy : truthy_conditional c = true).
  { unfold truthy_conditional. rewrite Hspec. apply negb_true_iff, andb_false_r. }
  assert (Hrs : Approvals_of d1 (Approval.expense_id r) <> []).
  { intros Hnil. rewrite Hnil in Hlisted. destruct Hlisted. }
  assert (Hmet : specific_met c (Approvals_of d1 (Approval.expense_id r)) = true).
  { apply specific_met_iff. exists ids. eexists. split; [exact Hspec|].
    split; [exact Hlisted|]. split; [reflexivity|]. simpl. now rewrite Hown. }
  assert (Heval : evaluate_conditional d1 (Approval.expense_id r) (Workflow.config w)
                  = Ok (update_expense d1 (Approval.expense_id r)
                          (Expense.set_status Status.approved))).
  { rewrite (evaluate_conditional_present d1 _ _ c e Hcond Htruthy Hrs Hexp).
    now rewrite Hmet, orb_true_r. }
  subst d1. enter_decision Hrole Hget Hown.
  rewrite Workflow_first_update_approval, Hwf, Hpar.
  change ("parallel_conditional" =? "sequential") with false.
  change ("parallel_conditional" =? "parallel_conditional") with true. cbv iota.
  rewrite expense_update_approval.
  change (Approval.expense_id (Approval.decide _ _ r)) with (Approval.expense_id r).
  rewrite Hexp. unfold deref. rewrite (Expense_get_id _ _ _ Hexp), Heval.
  split; [|reflexivity]. simpl fst. apply (status_of_update _ _ _ e). exact Hexp.
Qed.

(** X11. Under a parallel_conditional workflow a decision, approve or
    reject, only records itself and lets the evaluator set the status: no
    approval record is added or removed, and the comments of the expense
    are never written (a reject does not copy its comments there). *)
Theorem parallel_decision_keeps_records_and_comments a w :
  Workflow_first d (User.company_id cu) = Some w ->
  exp_type_of (Workflow.config w) = "parallel_conditional" ->
  approvals (fst (decide a d current_user k data))
  = approvals (after_decision d k a data) /\
  comments_of (fst (decide a d current_user k data)) (Approval.expense_id r)
  = comments_of d (Approval.expense_id r).
Proof.
  intros Hwf Hpar. pose proof (parallel_type _ Hpar) as Hty.
  destruct a; simpl decide; enter_decision Hrole Hget Hown;
    rewrite Workflow_first_update_approval, Hwf; unfold after_decision.
  - rewrite Hpar.
    change ("parallel_conditional" =? "sequential") with false.
    change ("parallel_conditional" =? "parallel_conditional") with true. cbv iota.
    unfold deref. destruct (expense _ _) as [e|] eqn:He; [|split; reflexivity].
    apply Expense_get_id in He.
    change (Approval.expense_id (Approval.decide _ _ r)) with (Approval.expense_id r) in He.
    rewrite He.
    destruct (evaluate_conditional _ _ _) as [d'|e0] eqn:Hev; [|split; reflexivity].
    apply evaluate_conditional_frame in Hev.
    destruct Hev as (Happ & _ & _ & _ & _ & Hcom). simpl fst.
    split; [exact Happ|exact Hcom].
  - unfold is_parallel_conditional. rewrite Hty.
    change ("parallel_conditional" =? "parallel_conditional") with true. cbv iota.
    unfold deref. destruct (expense _ _) as [e|] eqn:He; [|split; reflexivity].
    apply Expense_get_id in He.
    change (Approval.expense_id (Approval.decide _ _ r)) with (Approval.expense_id r) in He.
    rewrite He.
    destruct (evaluate_conditional _ _ _) as [d'|e0] eqn:Hev; [|split; reflexivity].
    apply evaluate_conditional_frame in Hev.
    destruct Hev as (Happ & _ & _ & _ & _ & Hcom). simpl fst.
    split; [exact Happ|exact Hcom].
Qed.

End Branches.

Lemma approve_without_workflow_approves_witness :
  approve_expense Fixture.lawless (Some Sample.boss) 1 Sample.no_body
  = (update_expense (after_decision Fixture.lawless 1 Action.approved Sample.no_body)
       100 (Expense.set_status Status.approved),
     jsonify "Approved") /\
  status_of (fst (approve_expense Fixture.lawless (Some Sample.boss) 1 Sample.no_body)) 100
  = Some Status.approved.
Proof.
  apply (approve_without_workflow_approves
           Fixture.lawless (Some Sample.boss) Sample.boss 1 Sample.no_body
           (Approval.mk 1 100 2 1 None None) eq_refl eq_refl eq_refl
           (Sample.lunch Status.pending) eq_refl eq_refl).
Defined.

Lemma approve_unknown_type_only_records_witness :
  approve_expense Fixture.hybrid (Some Sample.boss) 1 Sample.no_body
  = (after_decision Fixture.hybrid 1 Action.approved Sample.no_body, jsonify "Approved").
Proof.
  apply (approve_unknown_type_only_records
           Fixture.hybrid (Some Sample.boss) Sample.boss 1 Sample.no_body
           (Approval.mk 1 100 2 1 None None) eq_refl eq_refl eq_refl
           (Workflow.mk 1 1 (mk_config (Some "hybrid") (Some [manager_of_submitter]) None))
           eq_refl); simpl; discriminate.
Defined.

(** The admin, named in ['specific'], approves while the manager has not
    voted: one approval of two is below the threshold of 60. *)
Lemma approve_by_specific_approver_approves_witness :
  status_of (fst (approve_expense Fixture.polled (Some Sample.admin) 2 Sample.no_body)) 100
  = Some Status.approved /\
  snd (approve_expense Fixture.polled (Some Sample.admin) 2 Sample.no_body)
  = jsonify "Approved, condition evaluated".
Proof.
  apply (approve_by_specific_approver_approves
           Fixture.polled (Some Sample.admin) Sample.admin 2 Sample.no_body
           (Approval.mk 2 100 1 3 None None) eq_refl eq_refl eq_refl
           (Sample.lunch Status.pending) (Workflow.mk 1 1 Fixture.voting)
           Fixture.vote [1%Z] eq_refl eq_refl eq_refl eq_refl eq_refl).
  simpl. auto.
Defined.

Lemma parallel_decision_keeps_records_and_comments_witness :
  approvals (fst (decide Action.rejected Fixture.polled (Some Sample.boss) 1
                         (Sample.with_comments "too much")))
  = approvals (after_decision Fixture.polled 1 Action.rejected
                 (Sample.with_comments "too much")) /\
  comments_of (fst (decide Action.rejected Fixture.polled (Some Sample.boss) 1
                           (Sample.with_comments "too much"))) 100
  = comments_of Fixture.polled 100.
Proof.
  apply (parallel_decision_keeps_records_and_comments
           Fixture.polled (Some Sample.boss) Sample.boss 1
           (Sample.with_comments "too much") (Approval.mk 1 100 2 1 None None)
           eq_refl eq_refl eq_refl Action.rejected (Workflow.mk 1 1 Fixture.voting)
           eq_refl eq_refl).
Defined.

(* ================================================================== *)
(** ** Who can decide, who can override *)

Lemma role_required_inv roles current_user cu :
  role_required roles current_user = Ok cu ->
  current_user = Some cu /\ In (User.role cu) roles.
Proof.
  unfold role_required. destruct current_user as [u|]; [|discriminate].
  destruct (existsb _ roles) eqn:Hex; [|discriminate]. intros [= <-].
  split; [reflexivity|]. apply existsb_exists in Hex.
  destruct Hex as [x [Hin Hx]]. apply String.eqb_eq in Hx. now subst.
Qed.

Lemma record_decision_codes d cu k a data e :
  record_decision d cu k a data = Raise e ->
  e = HTTPException 403 \/ e = HTTPException 404.
Proof.
  unfold record_decision. destruct (Approval_get d k).
  - destruct (negb _); [|discriminate]. intros [= <-]. now left.
  - intros [= <-]. now right.
Qed.

Lemma manager_or_admin roles current_user cu :
  roles = ["manager"; "admin"] ->
  authorize roles current_user = Ok cu ->
  current_user = Some cu /\ (User.role cu = "manager" \/ User.role cu = "admin").
Proof.
  intros -> H. apply authorize_inv, role_required_inv in H.
  destruct H as [Hcu Hin]. split; [exact Hcu|]. simpl in Hin. intuition congruence.
Qed.

(** X12. A decision request with a JSON body has three outcomes only.
    It is refused by the checks that come first (302 for an anonymous
    caller, 403 for a wrong role or for a caller who is not the record's
    approver, 404 for an unknown record) and the database is exactly as
    before.  Or the caller is a manager or admin and the approver of the
    existing record but the body is not a JSON object: the answer is 500
    and the database is exactly as before.  Or the caller is such an
    approver and the body is an object: the decision is stored on the
    record, and the answer is 200 (or 500 when the handler raises after
    the write). *)
Theorem decide_refused_or_recorded a d current_user k json :
  (fst (decide_request a d current_user k json) = d /\
   (fst (snd (decide_request a d current_user k json)) = 302 \/
    fst (snd (decide_request a d current_user k json)) = 403 \/
    fst (snd (decide_request a d current_user k json)) = 404)) \/
  (exists cu r,
      json = json_other /\
      current_user = Some cu /\
      (User.role cu = "manager" \/ User.role cu = "admin") /\
      Approval_get d k = Some r /\ Approval.approver_id r = User.id cu /\
      fst (decide_request a d current_user k json) = d /\
      fst (snd (decide_request a d current_user k json)) = 500) \/
  (exists data cu r,
      json = json_object data /\
      current_user = Some cu /\
      (User.role cu = "manager" \/ User.role cu = "admin") /\
      Approval_get d k = Some r /\ Approval.approver_id r = User.id cu /\
      Approval_get (fst (decide_request a d current_user k json)) k
      = Some (Approval.decide a (Py.get (body_comments data) "") r) /\
      (fst (snd (decide_request a d current_user k json)) = 200 \/
       fst (snd (decide_request a d current_user k json)) = 500)).
Proof.
  destruct (authorize ["manager"; "admin"] current_user) as [cu|e] eqn:Hauth.
  - destruct (manager_or_admin _ _ _ eq_refl Hauth) as [Hcu Hrole].
    pose proof (authorize_inv _ _ _ Hauth) as Hrr.
    destruct json as [data|]; simpl decide_request.
    + destruct (record_decision d cu k a data) as [[d1 r1]|e] eqn:Hhead.
      * right. right. apply record_decision_inv in Hhead.
        destruct Hhead as (r & Hget & Hown & _ & _).
        exists data, cu, r. split; [reflexivity|]. split; [exact Hcu|].
        split; [exact Hrole|]. split; [exact Hget|]. split; [exact Hown|].
        destruct a; simpl decide.
        -- apply (approve_expense_overwrites d current_user cu k data r Hrr Hget Hown).
        -- apply (reject_expense_overwrites d current_user cu k data r Hrr Hget Hown).
      * left. apply record_decision_codes in Hhead as Hcode.
        destruct a; unfold decide, approve_expense, reject_expense;
          rewrite Hauth, Hhead; (split; [reflexivity|]);
          destruct Hcode as [-> | ->]; simpl; auto.
    + rewrite Hauth. destruct (Approval_get d k) as [r|] eqn:Hget.
      * destruct (Z.eqb_spec (Approval.approver_id r) (User.id cu)) as [Hown|Hown];
          simpl negb; cbv iota.
        -- right. left. exists cu, r. repeat split; assumption.
        -- left. split; [reflexivity|]. simpl. auto.
      * left. split; [reflexivity|]. simpl. auto.
  - left. apply authorize_codes in Hauth as Hcode.
    destruct json as [data|]; simpl decide_request;
      [destruct a; unfold decide, approve_expense, reject_expense|];
      rewrite Hauth; (split; [reflexivity|]);
      destruct Hcode as [-> | ->]; simpl; auto.
Qed.

(** An override whose body is not a JSON object changes nothing and is
    never answered 200. *)
Lemma override_request_not_an_object d current_user k :
  fst (override_request d current_user k json_other) = d /\
  fst (snd (override_request d current_user k json_other)) <> 200.
Proof.
  unfold override_request, deref.
  destruct (authorize ["admin"] current_user) as [cu|e0] eqn:Hauth.
  - destruct (Expense_get d k) as [e|]; [|split; [reflexivity|discriminate]].
    destruct (employee d e) as [s|]; [|split; [reflexivity|discriminate]].
    destruct (negb _); split; first [reflexivity|discriminate].
  - split; [reflexivity|].
    apply authorize_codes in Hauth. destruct Hauth as [-> | ->]; discriminate.
Qed.

(** X13. An override changes the database only when it answers 200, and
    it answers 200 only to an admin of the submitter's company who names
    an existing expense and the action approve or reject; every other
    request (the redirect of an anonymous caller, 403, 404, 400 for
    another action, 500 for an expense whose submitter row is missing)
    leaves the database exactly as before. *)
Theorem override_refused_or_done d current_user k data :
  (fst (override_approval d current_user k data) = d /\
   fst (snd (override_approval d current_user k data)) <> 200) \/
  (fst (snd (override_approval d current_user k data)) = 200 /\
   exists cu e s,
     current_user = Some cu /\ User.role cu = "admin" /\
     Expense_get d k = Some e /\ employee d e = Some s /\
     User.company_id s = User.company_id cu /\
     (body_action data = Some "approve" \/ body_action data = Some "reject")).
Proof.
  unfold override_approval, deref.
  destruct (authorize ["admin"] current_user) as [cu|e0] eqn:Hauth.
  2:{ left. split; [reflexivity|].
      apply authorize_codes in Hauth. destruct Hauth as [-> | ->]; simpl; lia. }
  pose proof (authorize_inv _ _ _ Hauth) as Hrole.
  destruct (Expense_get d k) as [e|] eqn:Hexp; [|left; split; [reflexivity|simpl; lia]].
  destruct (employee d e) as [s|] eqn:Hsub; [|left; split; [reflexivity|simpl; lia]].
  destruct (Z.eqb_spec (User.company_id s) (User.company_id cu)) as [Hco|Hco];
    [|left; split; [reflexivity|simpl; lia]].
  simpl negb. cbv iota.
  destruct (role_required_inv _ _ _ Hrole) as [Hcu Hin].
  assert (Hadmin : User.role cu = "admin") by (simpl in Hin; intuition congruence).
  destruct (Py.get (body_action data) "" =? "approve") eqn:Ha.
  - right. split; [reflexivity|]. exists cu, e, s. repeat split; try assumption.
    left. apply String.eqb_eq in Ha. unfold Py.get in Ha.
    destruct (body_action data); [now subst|discriminate].
  - destruct (Py.get (body_action data) "" =? "reject") eqn:Hr.
    + right. split; [reflexivity|]. exists cu, e, s. repeat split; try assumption.
      right. apply String.eqb_eq in Hr. unfold Py.get in Hr.
      destruct (body_action data); [now subst|discriminate].
    + left. split; [reflexivity|simpl; lia].
Qed.





(* ================================================================== *)
(** ** What a decision leaves alone *)

Lemma In_after_decision d k a data other :
  In other (approvals d) -> Approval.id other <> k ->
  In other (approvals (after_decision d k a data)).
Proof. intros Hin Hne. simpl. now apply In_update_other. Qed.

Lemma expense_of_decided d k a data r e :
  expense (after_decision d k a data)
          (Approval.decide a (Py.get (body_comments data) "") r) = Some e ->
  Expense.id e = Approval.expense_id r.
Proof. intros H. now apply Expense_get_id in H. Qed.

Ltac frame_leaf :=
  simpl fst;
  repeat match goal with
         | H : evaluate_conditional _ _ _ = Ok _ |- _ =>
             apply evaluate_conditional_frame in H;
             destruct H as (? & ? & ? & ? & ? & ?)
         | H : expense (after_decision _ _ _ _) _ = Some _ |- _ =>
             apply expense_of_decided in H
         end.

(** X15. A decision touches its own record and its own expense only: the
    users, companies and workflows tables are as before, every other
    approval record is still in the table as it was, and every expense
    other than the one of the decided record is as it was. *)
Theorem decide_touches_nothing_else a d current_user k data :
  (users (fst (decide a d current_user k data)) = users d /\
   companies (fst (decide a d current_user k data)) = companies d /\
   workflows (fst (decide a d current_user k data)) = workflows d) /\
  (forall other, In other (approvals d) -> Approval.id other <> k ->
     In other (approvals (fst (decide a d current_user k data)))) /\
  (forall k',
     (forall r, Approval_get d k = Some r -> Approval.expense_id r <> k') ->
     Expense_get (fst (decide a d current_user k data)) k' = Expense_get d k').
Proof.
  split; [|split].
  - destruct a; decision_paths; frame_leaf;
      repeat split;
      first [reflexivity | (etransitivity; [eassumption|reflexivity])].
  - intros other Hin Hne.
    destruct a; decision_paths; frame_leaf; try assumption;
      try (now apply In_after_decision);
      try (simpl; apply in_or_app; left; now apply In_update_other);
      match goal with H : approvals _ = approvals _ |- _ => rewrite H end;
      now apply In_after_decision.
  - intros k' Hk.
    destruct a; decision_paths; frame_leaf; try reflexivity;
      match goal with
      | H : Approval_get d k = Some _ |- _ => specialize (Hk _ H)
      end;
      first
        [ rewrite Expense_get_update_other; [reflexivity|reflexivity|congruence]
        | match goal with
          | H : forall k', k' <> _ -> Expense_get _ k' = Expense_get _ k' |- _ =>
              rewrite H; [reflexivity|congruence]
          end ].
Qed.

(* ================================================================== *)
(** ** The pending list *)

Lemma exp_dict_id es k e : exp_dict es k = Some e -> Expense.id e = k.
Proof. apply (find_key Expense.id). Qed.

Lemma pending_rows_entries d es rs items :
  pending_rows d es rs = Some items -> items = map entry_of rs.
Proof.
  revert items. induction rs as [|a rs IH]; simpl; intros items H.
  - now injection H as <-.
  - destruct (exp_dict es (Approval.expense_id a)) as [e|] eqn:He; [|discriminate].
    destruct (employee d e); [|discriminate].
    destruct (pending_rows d es rs) as [rest|]; [|discriminate].
    injection H as <-. rewrite (IH rest eq_refl).
    unfold entry_of at 1. now rewrite (exp_dict_id _ _ _ He).
Qed.

Lemma pending_approvals_inv d viewer items :
  pending_approvals d viewer = Listed items ->
  exists cu, viewer = Some cu /\
             items = map entry_of (Approvals_pending_for d (User.id cu)).
Proof.
  unfold pending_approvals.
  destruct (authorize _ viewer) as [cu|e] eqn:Hauth; [|discriminate].
  destruct (pending_rows _ _ _) as [result|] eqn:Hrows; [|discriminate].
  intros [= <-]. exists cu.
  split; [apply (role_required_inv _ _ _ (authorize_inv _ _ _ Hauth))|].
  now apply pending_rows_entries in Hrows.
Qed.

(** X16. When the pending list is answered, it mirrors the caller's
    pending records one for one and in table order: each entry carries
    the id, the expense id and the step of a record whose approver is the
    caller and whose action is null, and no such record is missing. *)
Theorem pending_approvals_lists_own_pending d cu items :
  pending_approvals d (Some cu) = Listed items ->
  items = map entry_of (Approvals_pending_for d (User.id cu)) /\
  (forall a, In (entry_of a) items <->
             exists a', In a' (approvals d) /\ entry_of a' = entry_of a /\
                        Approval.approver_id a' = User.id cu /\
                        Approval.action a' = None).
Proof.
  intros H. apply pending_approvals_inv in H. destruct H as [cu' [[= <-] ->]].
  split; [reflexivity|]. intros a. rewrite in_map_iff. split.
  - intros [a' [Heq Hin]]. unfold Approvals_pending_for in Hin.
    apply filter_In in Hin. destruct Hin as [Hin Hp].
    apply andb_true_iff in Hp. destruct Hp as [Hu Hn]. apply Z.eqb_eq in Hu.
    exists a'. repeat split; try assumption.
    destruct (Approval.action a'); [discriminate|reflexivity].
  - intros [a' [Hin [Heq [Hu Hn]]]]. exists a'. split; [exact Heq|].
    apply filter_In. split; [exact Hin|]. now rewrite Hu, Hn, Z.eqb_refl.
Qed.

Lemma pending_approvals_lists_own_pending_witness :
  [mk_item 100 1 1]
  = map entry_of (Approvals_pending_for Fixture.polled (User.id Sample.boss)) /\
  (forall a, In (entry_of a) [mk_item 100 1 1] <->
             exists a', In a' (approvals Fixture.polled) /\ entry_of a' = entry_of a /\
                        Approval.approver_id a' = User.id Sample.boss /\
                        Approval.action a' = None).
Proof.
  apply (pending_approvals_lists_own_pending Fixture.polled Sample.boss [mk_item 100 1 1]).
  reflexivity.
Defined.

Lemma find_rev_none {A : Type} (p : A -> bool) (l : list A) :
  find p (rev l) = None -> forall x, In x l -> p x = false.
Proof.
  intros H x Hin. apply (find_none _ _ H). now apply in_rev in Hin.
Qed.

Lemma pending_rows_total d es rs :
  (forall a, In a rs -> exists e, In e es /\ Expense.id e = Approval.expense_id a) ->
  (forall e, In e es -> employee d e <> None) ->
  exists items, pending_rows d es rs = Some items.
Proof.
  intros Hexp Hemp. induction rs as [|a rs IH]; simpl; [now exists []|].
  destruct (exp_dict es (Approval.expense_id a)) as [e|] eqn:He.
  - assert (Hin : In e es).
    { unfold exp_dict in He. apply find_some in He. apply in_rev. tauto. }
    destruct (employee d e) eqn:Hsub; [|now apply Hemp in Hin].
    destruct IH as [rest ->]; [intros a' Ha'; apply Hexp; now right|].
    eexists. reflexivity.
  - exfalso. destruct (Hexp a (or_introl eq_refl)) as [e [Hin Hid]].
    pose proof (find_rev_none _ _ He e Hin) as Hno. simpl in Hno.
    rewrite Hid, Z.eqb_refl in Hno. discriminate.
Qed.

(** X17. With referential integrity the pending list never fails: a
    manager or admin always gets a list (a missing expense row or a
    missing submitter row is the only way to the 500). *)
Theorem pending_approvals_answers d current_user cu :
  references_resolve d ->
  role_required ["manager"; "admin"] current_user = Ok cu ->
  pending_approvals d current_user
  = Listed (map entry_of (Approvals_pending_for d (User.id cu))).
Proof.
  intros [Hfk Hsub] Hrole. unfold pending_approvals.
  rewrite (authorize_ok _ _ _ Hrole).
  destruct (pending_rows_total d
              (Expenses_in d (map Approval.expense_id
                                  (Approvals_pending_for d (User.id cu))))
              (Approvals_pending_for d (User.id cu))) as [items Hitems].
  - intros a Hin.
    assert (Hina : In a (approvals d)).
    { unfold Approvals_pending_for in Hin. apply filter_In in Hin. tauto. }
    destruct (Expense_get d (Approval.expense_id a)) as [e|] eqn:He;
      [|now apply Hfk in Hina].
    exists e. split; [|now apply Expense_get_id in He].
    unfold Expenses_in. apply filter_In. split.
    + unfold Expense_get in He. now apply find_some in He.
    + unfold Py.contains. apply existsb_exists.
      exists (Approval.expense_id a). split; [now apply in_map|].
      apply Expense_get_id in He. rewrite He. apply Z.eqb_refl.
  - intros e Hin. apply Hsub. unfold Expenses_in in Hin. apply filter_In in Hin. tauto.
  - cbv zeta. rewrite Hitems. now rewrite (pending_rows_entries _ _ _ _ Hitems).
Qed.

Lemma pending_approvals_answers_witness :
  pending_approvals Fixture.polled (Some Sample.admin)
  = Listed (map entry_of (Approvals_pending_for Fixture.polled (User.id Sample.admin))).
Proof.
  apply (pending_approvals_answers Fixture.polled (Some Sample.admin) Sample.admin).
  - split.
    + intros a [<-|[<-|[]]]; discriminate.
    + intros e [<-|[]]; discriminate.
  - reflexivity.
Defined.

(* ================================================================== *)
(** ** Decisions, overrides and the pending list *)

Lemma record_decision_ok d cu k a data r :
  Approval_get d k = Some r ->
  Approval.approver_id r = User.id cu ->
  record_decision d cu k a data
  = Ok (after_decision d k a data,
        Approval.decide a (Py.get (body_comments data) "") r).
Proof.
  intros Hget Hown. unfold record_decision, after_decision.
  now rewrite Hget, Hown, Z.eqb_refl, (Approval_get_id _ _ _ Hget).
Qed.

(** A recorded decision leaves the approvals table as the table with the
    decision written, followed by at most one new row, pending and with a
    fresh id. *)
Lemma decide_approvals_shape a d current_user cu k data r :
  role_required ["manager"; "admin"] current_user = Ok cu ->
  Approval_get d k = Some r ->
  Approval.approver_id r = User.id cu ->
  exists extra,
    approvals (fst (decide a d current_user k data))
    = approvals (after_decision d k a data) ++ extra /\
    (forall x, In x extra ->
       Approval.id x = next_approval_id d /\ Approval.action x = None).
Proof.
  intros Hrole Hget Hown.
  destruct a; unfold decide, approve_expense, reject_expense, deref;
    rewrite (authorize_ok _ _ _ Hrole), (record_decision_ok _ _ _ _ _ _ Hget Hown);
    split_cases; simpl fst;
    repeat match goal with
           | H : evaluate_conditional _ _ _ = Ok _ |- _ =>
               apply evaluate_conditional_approvals in H
           end;
    try (exists []; rewrite app_nil_r; split; [first [reflexivity|assumption]|intros x []]).
  eexists. split; [reflexivity|]. intros x [<-|[]]. split; [|reflexivity].
  apply next_approval_id_update.
Qed.

(** X18. Once a decision is recorded, the decided record is on nobody's
    pending list any more, whatever the workflow did next. *)
Theorem decided_record_leaves_pending_lists a d current_user cu k data r :
  role_required ["manager"; "admin"] current_user = Ok cu ->
  Approval_get d k = Some r ->
  Approval.approver_id r = User.id cu ->
  forall viewer items,
    pending_approvals (fst (decide a d current_user k data)) viewer = Listed items ->
    ~ In k (map item_approval_id items).
Proof.
  intros Hrole Hget Hown viewer items Hlist Hin.
  apply pending_approvals_inv in Hlist. destruct Hlist as [v [_ ->]].
  rewrite map_map in Hin. apply in_map_iff in Hin. destruct Hin as [row [Hid Hrow]].
  simpl in Hid. unfold Approvals_pending_for in Hrow. apply filter_In in Hrow.
  destruct Hrow as [Hrow Hp]. apply andb_true_iff in Hp. destruct Hp as [_ Hnone].
  destruct (decide_approvals_shape a d current_user cu k data r Hrole Hget Hown)
    as [extra [Hshape Hextra]].
  rewrite Hshape in Hrow. apply in_app_or in Hrow. destruct Hrow as [Hrow|Hrow].
  - simpl in Hrow. apply in_map_iff in Hrow. destruct Hrow as [x [Hx _]].
    destruct (Z.eqb_spec (Approval.id x) k) as [Heq|Hne].
    + subst row. discriminate.
    + subst row. contradiction.
  - destruct (Hextra row Hrow) as [Hnew _].
    unfold Approval_get in Hget. pose proof (find_key Approval.id _ _ _ Hget) as Hk.
    apply find_some in Hget. destruct Hget as [Hr _].
    apply next_approval_id_fresh in Hr. lia.
Qed.

Lemma decided_record_leaves_pending_lists_witness :
  pending_approvals
    (fst (decide Action.approved Fixture.chain (Some Sample.boss) 1 Sample.no_body))
    (Some Sample.admin) = Listed [mk_item 100 2 2] /\
  ~ In 1%Z (map item_approval_id [mk_item 100 2 2]).
Proof.
  split; [reflexivity|].
  apply (decided_record_leaves_pending_lists
           Action.approved Fixture.chain (Some Sample.boss) Sample.boss 1 Sample.no_body
           (Approval.mk 1 100 2 1 None None) eq_refl eq_refl eq_refl
           (Some Sample.admin) [mk_item 100 2 2] eq_refl).
Defined.

Lemma override_done_shape d current_user k data :
  fst (snd (override_approval d current_user k data)) = 200 ->
  exists d0,
    fst (override_approval d current_user k data)
    = delete_approvals d0 (Approvals_pending_of d0 k).
Proof.
  unfold override_approval, deref. intros H.
  destruct (authorize ["admin"] current_user) as [cu|e0] eqn:Hauth.
  2:{ apply authorize_codes in Hauth. destruct Hauth as [-> | ->]; discriminate. }
  destruct (Expense_get d k) as [e|]; [|discriminate].
  destruct (employee d e) as [s|]; [|discriminate].
  destruct (negb _); [discriminate|].
  destruct (_ =? "approve"); [eexists; reflexivity|].
  destruct (_ =? "reject"); [eexists; reflexivity|discriminate].
Qed.

(** X19. After an override that went through, the expense is on nobody's
    pending list any more. *)
Theorem overridden_expense_leaves_pending_lists d current_user k data :
  fst (snd (override_approval d current_user k data)) = 200 ->
  forall viewer items,
    pending_approvals (fst (override_approval d current_user k data)) viewer
    = Listed items ->
    ~ In k (map item_expense_id items).
Proof.
  intros Hdone viewer items Hlist Hin.
  apply override_done_shape in Hdone. destruct Hdone as [d0 Hd0].
  rewrite Hd0 in Hlist. apply pending_approvals_inv in Hlist.
  destruct Hlist as [v [_ ->]].
  rewrite map_map in Hin. apply in_map_iff in Hin. destruct Hin as [row [Hid Hrow]].
  simpl in Hid. unfold Approvals_pending_for in Hrow. apply filter_In in Hrow.
  destruct Hrow as [Hrow Hp]. apply andb_true_iff in Hp. destruct Hp as [_ Hnone].
  pose proof (pending_purged d0 k) as Hpurged.
  unfold Approvals_pending_of at 1 in Hpurged.
  pose proof (proj1 (filter_nil_iff _ _) Hpurged row Hrow) as Hno.
  simpl in Hno. rewrite Hid, Z.eqb_refl, Hnone in Hno. discriminate.
Qed.

Lemma overridden_expense_leaves_pending_lists_witness :
  pending_approvals
    (fst (override_approval Fixture.polled (Some Sample.admin) 100
            (mk_body (Some "reject") (Some "duplicate")))) (Some Sample.boss)
  = Listed [] /\
  ~ In 100%Z (map item_expense_id []).
Proof.
  split; [reflexivity|].
  apply (overridden_expense_leaves_pending_lists
           Fixture.polled (Some Sample.admin) 100
           (mk_body (Some "reject") (Some "duplicate")) eq_refl
           (Some Sample.boss) [] eq_refl).
Defined.



(* ================================================================== *)
(** ** The workflow route *)

Lemma Workflow_first_update_config d k c company_id w :
  Workflow_first d company_id = Some w ->
  Workflow.id w = k ->
  Workflow_first (update_workflow_config d k c) company_id
  = Some (Workflow.mk (Workflow.id w) (Workflow.company_id w) c).
Proof.
  intros Hw Hid. unfold Workflow_first, update_workflow_config. simpl.
  rewrite (find_map_key Workflow.company_id).
  - unfold Workflow_first in Hw. rewrite Hw. simpl. now rewrite Hid, Z.eqb_refl.
  - intros x. destruct (Workflow.id x =? k)%Z; reflexivity.
Qed.

(** X21. A [PUT /workflows] that is accepted is read back by the next
    [GET /workflows] of the same admin, and it is the config the engine
    finds for that company from then on; the accepted config is any
    non-empty one, whatever its type and steps (nothing is validated). *)
Theorem put_workflow_then_get d current_user cu w c :
  role_required ["admin"] current_user = Ok cu ->
  Workflow_first d (User.company_id cu) = Some w ->
  truthy_config c = true ->
  let d' := fst (manage_workflows d current_user PUT (mk_workflow_body (Some c))) in
  snd (manage_workflows d current_user PUT (mk_workflow_body (Some c)))
  = Config_reply (Some "Workflow updated") c /\
  manage_workflows d' current_user GET (mk_workflow_body None)
  = (d', Config_reply None c) /\
  option_map Workflow.config (Workflow_first d' (User.company_id cu)) = Some c /\
  users d' = users d /\ expenses d' = expenses d /\ approvals d' = approvals d.
Proof.
  intros Hrole Hwf Hc d'. subst d'. unfold manage_workflows.
  rewrite (authorize_ok _ _ _ Hrole), Hwf. simpl wb_config. cbv beta iota. rewrite Hc.
  simpl negb. cbv iota. simpl fst.
  rewrite (Workflow_first_update_config _ _ _ _ w Hwf eq_refl).
  repeat split.
Qed.

Lemma put_workflow_then_get_witness :
  snd (manage_workflows Fixture.chain (Some Sample.admin) PUT
         (mk_workflow_body (Some Fixture.voting)))
  = Config_reply (Some "Workflow updated") Fixture.voting /\
  manage_workflows
    (fst (manage_workflows Fixture.chain (Some Sample.admin) PUT
            (mk_workflow_body (Some Fixture.voting))))
    (Some Sample.admin) GET (mk_workflow_body None)
  = (fst (manage_workflows Fixture.chain (Some Sample.admin) PUT
            (mk_workflow_body (Some Fixture.voting))),
     Config_reply None Fixture.voting) /\
  option_map Workflow.config
    (Workflow_first
       (fst (manage_workflows Fixture.chain (Some Sample.admin) PUT
               (mk_workflow_body (Some Fixture.voting))))
       (User.company_id Sample.admin))
  = Some Fixture.voting /\
  users (fst (manage_workflows Fixture.chain (Some Sample.admin) PUT
                (mk_workflow_body (Some Fixture.voting))))
  = users Fixture.chain /\
  expenses (fst (manage_workflows Fixture.chain (Some Sample.admin) PUT
                   (mk_workflow_body (Some Fixture.voting))))
  = expenses Fixture.chain /\
  approvals (fst (manage_workflows Fixture.chain (Some Sample.admin) PUT
                    (mk_workflow_body (Some Fixture.voting))))
  = approvals Fixture.chain.
Proof.
  apply (put_workflow_then_get Fixture.chain (Some Sample.admin) Sample.admin
           (Workflow.mk 1 1 Sample.default_config) Fixture.voting
           eq_refl eq_refl eq_refl).
Defined.

(** X22. The workflow route changes the database only through an
    accepted [PUT]: a [GET] never writes, and a [PUT] that is refused
    (caller not an admin, no workflow row for the company, config missing
    or empty) leaves every table as it was. *)
Theorem manage_workflows_refused_changes_nothing d current_user m data :
  fst (manage_workflows d current_user m data) = d \/
  (m = PUT /\
   exists cu w c,
     role_required ["admin"] current_user = Ok cu /\
     Workflow_first d (User.company_id cu) = Some w /\
     wb_config data = Some c /\ truthy_config c = true /\
     manage_workflows d current_user m data
     = (update_workflow_config d (Workflow.id w) c,
        Config_reply (Some "Workflow updated") c)).
Proof.
  unfold manage_workflows.
  destruct (authorize ["admin"] current_user) as [cu|e] eqn:Hauth; [|now left].
  pose proof (authorize_inv _ _ _ Hauth) as Hrole.
  destruct m.
  - left. destruct (Workflow_first d (User.company_id cu)); reflexivity.
  - destruct (Workflow_first d (User.company_id cu)) as [w|] eqn:Hwf; [|now left].
    destruct (wb_config data) as [c|] eqn:Hc; [|now left].
    destruct (truthy_config c) eqn:Ht; [|now left].
    right. split; [reflexivity|]. exists cu, w, c.
    repeat split; first [assumption|reflexivity].
Qed.

(* ================================================================== *)
(** ** Approving the same record twice *)

Lemma fold_max_app (l : list Z) (v : Z) :
  (0 <= v)%Z ->
  fold_right Z.max 0%Z (l ++ [v]) = Z.max (fold_right Z.max 0%Z l) v.
Proof.
  intros Hv. induction l as [|x l IH]; cbn [app fold_right]; [lia|].
  rewrite IH. lia.
Qed.

Lemma fold_max_nonneg (l : list Z) : (0 <= fold_right Z.max 0%Z l)%Z.
Proof. induction l as [|x l IH]; cbn [fold_right]; lia. Qed.

Lemma next_approval_id_add d e u s :
  next_approval_id (add_approval d e u s) = (next_approval_id d + 1)%Z.
Proof.
  unfold next_approval_id, add_approval, with_approvals.
  cbn [approvals]. rewrite map_app. cbn [map Approval.id].
  pose proof (fold_max_nonneg (map Approval.id (approvals d))).
  rewrite fold_max_app; unfold next_approval_id; lia.
Qed.

(** Writing the same decision again on the state that already has it and
    one forwarded row changes nothing. *)
Lemma after_decision_again d k a data r e u s :
  Approval_get d k = Some r ->
  after_decision (add_approval (after_decision d k a data) e u s) k a data
  = add_approval (after_decision d k a data) e u s.
Proof.
  intros Hget.
  assert (Hfresh : (k < next_approval_id d)%Z).
  { rewrite <- (Approval_get_id _ _ _ Hget). apply next_approval_id_fresh.
    unfold Approval_get in Hget. now apply find_some in Hget. }
  pose proof (next_approval_id_update d k a (Py.get (body_comments data) "")) as Hnext.
  unfold after_decision, add_approval, update_approval, with_approvals in *.
  cbn [companies users expenses approvals workflows] in *.
  f_equal. rewrite map_app, map_map. f_equal.
  - apply map_ext. intros x.
    destruct (Approval.id x =? k)%Z eqn:Hx; cbn [Approval.id Approval.decide];
      rewrite Hx; reflexivity.
  - cbn [map Approval.id]. rewrite Hnext.
    destruct (Z.eqb_spec (next_approval_id d) k); [lia|reflexivity].
Qed.

(** X23. Nothing stops a second approval of the same record: under a
    sequential workflow, approving a record twice forwards the expense
    twice, leaving the next approver with two pending records for the
    same expense and step. *)
Theorem approving_twice_forwards_twice
    d current_user cu k data r e w next_step next_approver :
  role_required ["manager"; "admin"] current_user = Ok cu ->
  Approval_get d k = Some r ->
  Approval.approver_id r = User.id cu ->
  Expense_get d (Approval.expense_id r) = Some e ->
  Workflow_first d (User.company_id cu) = Some w ->
  exp_type_of (Workflow.config w) = "sequential" ->
  nth_error (steps_of (Workflow.config w)) (Approval.step r) = Some next_step ->
  determine_approver d (employee d e) next_step (company d cu) = Ok (Some next_approver) ->
  approvals
    (fst (approve_expense (fst (approve_expense d current_user k data))
                          current_user k data))
  = approvals (after_decision d k Action.approved data)
    ++ [Approval.mk (next_approval_id d) (Approval.expense_id r)
          (User.id next_approver) (Approval.step r + 1) None None;
        Approval.mk (next_approval_id d + 1) (Approval.expense_id r)
          (User.id next_approver) (Approval.step r + 1) None None].
Proof.
  intros Hrole Hget Hown Hexp Hwf Hseq Hnth Hres.
  assert (Hlt : (Approval.step r <? List.length (steps_of (Workflow.config w)))%nat = true).
  { apply Nat.ltb_lt. apply nth_error_Some. congruence. }
  rewrite (approve_sequential_step d current_user cu k data r e w
             Hrole Hget Hown Hexp Hwf Hseq) at 1.
  cbv zeta. rewrite Hlt, Hnth, Hres. simpl fst.
  set (d1 := add_approval (after_decision d k Action.approved data)
               (Expense.id e) (User.id next_approver) (Approval.step r + 1)).
  assert (Hget1 : Approval_get d1 k
                  = Some (Approval.decide Action.approved
                            (Py.get (body_comments data) "") r)).
  { apply Approval_get_add. apply Approval_get_update; [reflexivity|exact Hget]. }
  rewrite (approve_sequential_step d1 current_user cu k data _ e w
             Hrole Hget1 Hown Hexp Hwf Hseq).
  cbv zeta.
  change (Approval.step (Approval.decide _ _ r)) with (Approval.step r).
  rewrite Hlt, Hnth.
  replace (determine_approver d1 (employee d1 e) next_step (company d1 cu))
    with (determine_approver d (employee d e) next_step (company d cu))
    by (destruct next_step; reflexivity).
  rewrite Hres. simpl fst. subst d1.
  rewrite (after_decision_again _ _ _ _ r _ _ _ Hget).
  unfold add_approval at 1. simpl approvals at 1.
  rewrite next_approval_id_add. unfold after_decision at 1.
  rewrite next_approval_id_update.
  unfold add_approval. simpl approvals at 1.
  rewrite <- app_assoc. simpl. unfold after_decision.
  rewrite next_approval_id_update, (Expense_get_id _ _ _ Hexp). reflexivity.
Qed.

Lemma approving_twice_forwards_twice_witness :
  approvals
    (fst (approve_expense
            (fst (approve_expense Fixture.chain (Some Sample.boss) 1 Sample.no_body))
            (Some Sample.boss) 1 Sample.no_body))
  = approvals (after_decision Fixture.chain 1 Action.approved Sample.no_body)
    ++ [Approval.mk 2 100 1 2 None None; Approval.mk 3 100 1 2 None None].
Proof.
  apply (approving_twice_forwards_twice
           Fixture.chain (Some Sample.boss) Sample.boss 1 Sample.no_body
           (Approval.mk 1 100 2 1 None None) (Sample.lunch Status.pending)
           (Workflow.mk 1 1 Sample.default_config) (role_step "admin") Sample.admin
           eq_refl eq_refl eq_refl eq_refl eq_refl eq_refl eq_refl eq_refl).
Defined.
